(** * Paper-Reviewer-AI: the fallback-and-normalisation pipeline

    A shallow embedding of [backend/app/crew_setup.py] and
    [backend/app/main.py].  Python values are a small inductive type,
    the external collaborators (arXiv, the generative-text provider, the
    CrewAI pipeline, [json.loads]) are fields of an environment record,
    and every function of the source runs in a monad that carries the
    ordered log of collaborator calls together with a value or a raised
    exception. *)

From Stdlib Require Import String Ascii List ZArith Bool Lia Floats.
Import ListNotations.
Local Open Scope string_scope.
Local Open Scope Z_scope.

Set Warnings "-register-all".

(** ** Python values *)

Module Py.

(** The values that can flow through the pipeline: every JSON value,
    plus [PObj] for an instance of some other class, given by its
    attributes.  A [dict] keeps its insertion order, so it is an
    association list; every dict met here has string keys. *)
Inductive pyval : Type :=
| PNone
| PBool (b : bool)
| PInt (n : Z)
| PFloat (f : float)
| PStr (s : string)
| PList (l : list pyval)
| PDict (kvs : list (string * pyval))
| PObj (attrs : list (string * pyval)).

Definition dict := list (string * pyval).

(** [bool(v)]. An instance of a plain class is truthy. *)
Definition truthy (v : pyval) : bool :=
  match v with
  | PNone => false
  | PBool b => b
  | PInt n => negb (n =? 0)
  | PFloat f => negb (PrimFloat.eqb f PrimFloat.zero)
  | PStr s => negb (String.eqb s "")
  | PList l => match l with [] => false | _ => true end
  | PDict kvs => match kvs with [] => false | _ => true end
  | PObj _ => true
  end.

(** [a or b] *)
Definition py_or (a b : pyval) : pyval := if truthy a then a else b.

Definition isinstance_str (v : pyval) : bool :=
  match v with PStr _ => true | _ => false end.

Definition isinstance_list (v : pyval) : bool :=
  match v with PList _ => true | _ => false end.

Definition isinstance_dict (v : pyval) : bool :=
  match v with PDict _ => true | _ => false end.

(** First binding of a key in an association list. *)
Fixpoint lookup (k : string) (kvs : list (string * pyval)) : option pyval :=
  match kvs with
  | [] => None
  | (k', v) :: rest => if String.eqb k k' then Some v else lookup k rest
  end.

(** [d.get(k, default)] and [d.get(k)] *)
Definition get_default (d : dict) (k : string) (default : pyval) : pyval :=
  match lookup k d with Some v => v | None => default end.

Definition get (d : dict) (k : string) : pyval := get_default d k PNone.

Definition keys (d : dict) : list string := map fst d.

(** [hasattr(v, name)] / [getattr(v, name)]: of the values above only
    [PObj] carries attributes of its own choosing. *)
Definition getattr (v : pyval) (name : string) : option pyval :=
  match v with PObj attrs => lookup name attrs | _ => None end.

Definition hasattr (v : pyval) (name : string) : bool :=
  match getattr v name with Some _ => true | None => false end.

(** [len(v)]; [None] stands for the [TypeError] of an unsized value. *)
Definition len (v : pyval) : option nat :=
  match v with
  | PStr s => Some (String.length s)
  | PList l => Some (List.length l)
  | PDict kvs => Some (List.length kvs)
  | _ => None
  end.

(** [for p in v]: a list yields its items, a string its characters, a
    dict its keys; [None] stands for the [TypeError] otherwise. *)
Definition iter (v : pyval) : option (list pyval) :=
  match v with
  | PList l => Some l
  | PStr s => Some (map (fun c => PStr (String c "")) (list_ascii_of_string s))
  | PDict kvs => Some (map (fun kv => PStr (fst kv)) kvs)
  | _ => None
  end.

(** [sep.join(v)]: the items must all be strings. *)
Fixpoint join_strs (sep : string) (l : list pyval) : option string :=
  match l with
  | [] => Some ""
  | PStr s :: rest =>
      match rest with
      | [] => Some s
      | _ => match join_strs sep rest with
             | Some r => Some (s ++ sep ++ r)
             | None => None
             end
      end
  | _ => None
  end.

Definition join (sep : string) (v : pyval) : option string :=
  match iter v with
  | Some l => join_strs sep l
  | None => None
  end.

End Py.
Import Py.

(** ** Python strings: [str.strip] *)

Module PyStr.

(** [str.isspace] on one character, a character of a Rocq string being
    read as the code point of the same number (0..255). *)
Definition isspace (c : ascii) : bool :=
  let n := nat_of_ascii c in
  ((9 <=? n) && (n <=? 13) || (28 <=? n) && (n <=? 32)
   || (n =? 133) || (n =? 160))%nat.

Fixpoint lstrip (s : string) : string :=
  match s with
  | EmptyString => EmptyString
  | String c r => if isspace c then lstrip r else s
  end.

Fixpoint rstrip (s : string) : string :=
  match s with
  | EmptyString => EmptyString
  | String c r =>
      match rstrip r with
      | EmptyString => if isspace c then EmptyString else String c EmptyString
      | r' => String c r'
      end
  end.

Definition strip (s : string) : string := rstrip (lstrip s).

Fixpoint all_space (s : string) : bool :=
  match s with
  | EmptyString => true
  | String c r => isspace c && all_space r
  end.

Fixpoint drop (n : nat) (s : string) : string :=
  match n, s with
  | O, _ => s
  | S n', String _ r => drop n' r
  | S _, EmptyString => EmptyString
  end.

Definition endswith (s suffix : string) : bool :=
  let n := String.length s in
  let m := String.length suffix in
  (m <=? n)%nat && String.eqb (drop (n - m) s) suffix.

End PyStr.
Import PyStr.

(** ** Effects: the call log and exceptions *)

(** What [generate_content] is asked: the prompt is a fixed template
    around the title, the comma-joined authors and the abstract, so it is
    given by these three. *)
Record prompt : Type := Prompt {
  prompt_title : pyval;
  prompt_authors : string;
  prompt_abstract : pyval
}.

(** Calls that leave this module, in the order they are made.  The calls
    the crew makes on its own, inside [crew.kickoff()], are the
    framework's and are not logged. *)
Inductive event : Type :=
| EvCrew (topic : string) (top_n : Z)
    (* agents, tasks and crew are built and [crew.kickoff()] runs *)
| EvSearch (query : string) (max_results : Z)
    (* [_arxiv_search_function] is entered *)
| EvSummarize (paper : dict)
    (* [_summarize_with_gemini] is entered *)
| EvGenerate (model : string) (contents : prompt).
    (* [GENAI_CLIENT.models.generate_content] is called *)

Inductive exn : Type :=
| TypeError
| AttributeError
| ProviderError    (* whatever a collaborator raised *)
| RecursionError
| ValueError.

Inductive result (A : Type) : Type :=
| Ok (a : A)
| Raise (e : exn).
Arguments Ok {A} a.
Arguments Raise {A} e.

(** The same type under a name that a variable called [result], as the
    source has one, does not hide. *)
Abbreviation ended := result (only parsing).

(** A computation: the calls it made, and how it ended. *)
Definition M (A : Type) : Type := list event * result A.

Definition ret {A} (a : A) : M A := ([], Ok a).
Definition raise {A} (e : exn) : M A := ([], Raise e).
Definition emit (ev : event) : M unit := ([ev], Ok tt).

Definition bind {A B} (m : M A) (f : A -> M B) : M B :=
  match m with
  | (t1, Ok a) => let (t2, r) := f a in ((t1 ++ t2)%list, r)
  | (t1, Raise e) => (t1, Raise e)
  end.

Notation "x <- m ;; k" := (bind m (fun x => k))
  (at level 61, m at next level, right associativity).
Notation "m ;;; k" := (bind m (fun _ => k))
  (at level 61, right associativity).

Definition trace {A} (m : M A) : list event := fst m.
Definition outcome {A} (m : M A) : result A := snd m.

(** [x] where [None] is the given exception. *)
Definition orRaise {A} (e : exn) (x : option A) : M A :=
  match x with Some a => ret a | None => raise e end.

(** A step that calls nobody. *)
Definition lift {A} (r : result A) : M A := ([], r).

Definition is_search (ev : event) : bool :=
  match ev with EvSearch _ _ => true | _ => false end.

Definition is_summarize (ev : event) : bool :=
  match ev with EvSummarize _ => true | _ => false end.

Definition count (p : event -> bool) (t : list event) : nat :=
  List.length (filter p t).

(** ** The environment: module globals and external collaborators *)

(** One entry of [arxiv.Search(...).results()], as far as the code reads
    it: [r.title], [a.name for a in r.authors], [r.summary],
    [r.entry_id], and [r.published] already formatted as [%Y-%m-%d]. *)
Record arxiv_result : Type := ArxivResult {
  ar_title : string;
  ar_authors : list string;
  ar_summary : string;
  ar_entry_id : string;
  ar_published : option string
}.

(** The provider either yields all its results, or raises after having
    yielded some. *)
Inductive provider_outcome : Type :=
| Yields (rs : list arxiv_result)
| Fails (yielded : list arxiv_result).

(** The generative client, through the one method called on it,
    [models.generate_content(model, contents)]: [None] when the call
    raises, else [getattr(resp, "text", None)]. *)
Definition genai_client : Type := string -> prompt -> option (option string).

(** How [json.loads] ends on a string: with a value, with
    [json.JSONDecodeError], or with an exception of another class
    ([RecursionError] on a deeply nested text, a plain [ValueError] on a
    number of too many digits). *)
Inductive loads_outcome : Type :=
| Loaded (v : pyval)
| JSONDecodeError
| LoadsRaises (e : exn).

Record Env : Type := {
  (** [None] when [genai.Client()] raised at import *)
  GENAI_CLIENT : option genai_client;
  GEMINI_MODEL : string;
  GEMINI_API_KEY : option string;
  json_loads : string -> loads_outcome;
  (** [arxiv.Search(query, max_results, Relevance).results()] *)
  arxiv_search : string -> Z -> provider_outcome;
  (** building the crew and [crew.kickoff()]: [None] when it raises *)
  crew_kickoff : string -> Z -> option pyval
}.

Module CrewSetup.

Section WithEnv.

Variable E : Env.

(** *** Paper Search Client (crew_setup.py, lines 46-66) *)

Definition paper_of_result (r : arxiv_result) : pyval :=
  PDict [ ("title", PStr (ar_title r));
          ("authors", PList (map PStr (ar_authors r)));
          ("abstract", PStr (ar_summary r));
          ("link", PStr (ar_entry_id r));
          ("published",
            match ar_published r with Some d => PStr d | None => PNone end) ].

Definition _arxiv_search_function (query : string) (max_results : Z)
  : M (list pyval) :=
  emit (EvSearch query max_results) ;;;
  match arxiv_search E query max_results with
  | Yields rs => ret (map paper_of_result rs)
  | Fails _ => ret []          (* except Exception: return [] *)
  end.

(** *** Summarization Client (lines 138-160) *)

Definition fence_json : string := "```json".
Definition fence : string := "```".

(** [re.sub(r"^```(json)?", "", text)] *)
Definition strip_fence_prefix (text : string) : string :=
  if String.prefix fence_json text then drop 7 text
  else if String.prefix fence text then drop 3 text
  else text.

Definition newline : string := String (ascii_of_nat 10) "".

(** [re.sub(r"```$", "", text)]: [$] matches at the end of the text and
    just before a newline that ends it. *)
Definition strip_fence_suffix (text : string) : string :=
  if endswith text fence
  then String.substring 0 (String.length text - 3) text
  else if endswith text (fence ++ newline)
  then String.substring 0 (String.length text - 4) text ++ newline
  else text.

Definition _clean_json_text (text : string) : string :=
  strip (strip_fence_suffix (strip_fence_prefix (strip text))).

Definition empty_summary : pyval :=
  PDict [ ("problem", PStr ""); ("methodology", PStr "");
          ("findings", PStr ""); ("limitations", PStr "") ].

Definition _summarize_with_gemini (paper : dict) : M pyval :=
  emit (EvSummarize paper) ;;;
  match GENAI_CLIENT E with
  | None => ret empty_summary
  | Some client =>
      authors <- orRaise TypeError
                   (join ", " (get_default paper "authors" (PList []))) ;;
      let contents :=
        Prompt (get_default paper "title" (PStr "")) authors
               (get_default paper "abstract" (PStr "")) in
      emit (EvGenerate (GEMINI_MODEL E) contents) ;;;
      resp <- orRaise ProviderError (client (GEMINI_MODEL E) contents) ;;
      (* text = getattr(resp, "text", None) or "{}" *)
      let text :=
        match resp with
        | Some t => if String.eqb t "" then "{}" else t
        | None => "{}"
        end in
      match json_loads E (_clean_json_text text) with
      | Loaded v => ret v
      | JSONDecodeError | LoadsRaises _ =>
          ret empty_summary           (* except Exception *)
      end
  end.

(** *** run_research_crew (lines 164-268) *)

(** Lines 167-192: the crew runs; if anything in it raises, the direct
    search result stands in for its result. *)
Definition orchestrate (topic : string) (top_n : Z) : M pyval :=
  emit (EvCrew topic top_n) ;;;
  match crew_kickoff E topic top_n with
  | Some result => ret result
  | None =>
      papers <- _arxiv_search_function topic top_n ;;
      ret (PList papers)
  end.

(** [model = GEMINI_MODEL if GEMINI_API_KEY else "gemini-2.5-flash"] *)
Definition model_name : string :=
  match GEMINI_API_KEY E with
  | Some k => if String.eqb k "" then "gemini-2.5-flash" else GEMINI_MODEL E
  | None => "gemini-2.5-flash"
  end.

(** [json.loads(s)] under [except json.JSONDecodeError: papers = []]
    (lines 202-208 and 215-221): an exception of another class is not
    caught. *)
Definition loads_or_empty (s : string) : result pyval :=
  match json_loads E s with
  | Loaded v => Ok v
  | JSONDecodeError => Ok (PList [])
  | LoadsRaises e => Raise e
  end.

Definition str_of (v : pyval) : string :=
  match v with PStr s => s | _ => "" end.

(** [result.raw], read only under [hasattr(result, 'raw')] *)
Definition raw_of (v : pyval) : pyval :=
  match getattr v "raw" with Some r => r | None => PNone end.

(** Lines 200-232: the [if]/[elif] chain over the shape of [result];
    it ends with the value of [papers], or with what [json.loads]
    raised. *)
Definition dispatch_shape (result : pyval) : ended pyval :=
  if isinstance_str result then
    loads_or_empty (str_of result)
  else if isinstance_list result then
    Ok result
  else if hasattr result "raw" && isinstance_str (raw_of result) then
    loads_or_empty (str_of (raw_of result))
  else if hasattr result "raw" then
    if isinstance_list (raw_of result) then Ok (raw_of result)
    else Ok (PList [])
  else
    Ok (PList []).

(** Lines 234-240: [len(papers)] is printed, then an empty [papers] is
    replaced by the direct search result. *)
Definition final_fallback (topic : string) (top_n : Z) (papers : pyval)
  : M pyval :=
  _ <- orRaise TypeError (len papers) ;;
  if negb (truthy papers) then
    found <- _arxiv_search_function topic top_n ;;
    ret (PList found)
  else ret papers.

(** [summary.get(k, "")] on whatever [summary] is *)
Definition summary_get (summary : pyval) (k : string) : M pyval :=
  match summary with
  | PDict d => ret (get_default d k (PStr ""))
  | _ => raise AttributeError
  end.

(** Lines 247-253 *)
Definition base_of (p : dict) : dict :=
  [ ("title", py_or (get p "title") (PStr ""));
    ("authors", py_or (get p "authors") (PList []));
    ("abstract", py_or (get p "abstract") (PStr ""));
    ("link", py_or (get p "link") (PStr ""));
    ("published", get p "published") ].

(** [not summary or not isinstance(summary, dict)] *)
Definition needs_summary (summary : pyval) : bool :=
  negb (truthy summary) || negb (isinstance_dict summary).

(** Lines 254-256: the embedded summary, or the Summarization Client's. *)
Definition summary_for (p base : dict) : M pyval :=
  let summary := get p "summary" in
  if needs_summary summary then _summarize_with_gemini base
  else ret summary.

(** Lines 247-262: the loop body for a [dict] entry. *)
Definition enrich_record (p : dict) : M pyval :=
  let base := base_of p in
  summary <- summary_for p base ;;
  problem <- summary_get summary "problem" ;;
  methodology <- summary_get summary "methodology" ;;
  findings <- summary_get summary "findings" ;;
  limitations <- summary_get summary "limitations" ;;
  ret (PDict (base ++
         [ ("summary", PDict [ ("problem", problem);
                               ("methodology", methodology);
                               ("findings", findings);
                               ("limitations", limitations) ]) ])%list).

(** Lines 243-262: the loop; an entry that is not a [dict] is skipped. *)
Fixpoint enrich_all (papers : list pyval) : M (list pyval) :=
  match papers with
  | [] => ret []
  | PDict p :: rest =>
      q <- enrich_record p ;;
      normalized <- enrich_all rest ;;
      ret (q :: normalized)
  | _ :: rest => enrich_all rest
  end.

(** The returned [{"topic": ..., "model": ..., "papers": ...}] *)
Record response : Type := Response {
  resp_topic : string;
  resp_model : string;
  resp_papers : list pyval
}.

(** Lines 243-268: the loop over the entries and the returned dict. *)
Definition enrich_and_respond (topic : string) (entries : list pyval)
  : M response :=
  normalized <- enrich_all entries ;;
  ret (Response topic model_name normalized).

(** Lines 194-268: everything after [result] is known. *)
Definition normalize (result : pyval) (topic : string) (top_n : Z)
  : M response :=
  shaped <- lift (dispatch_shape result) ;;
  papers <- final_fallback topic top_n shaped ;;
  entries <- orRaise TypeError (iter papers) ;;
  enrich_and_respond topic entries.

Definition run_research_crew (topic : string) (top_n : Z) : M response :=
  result <- orchestrate topic top_n ;;
  normalize result topic top_n.

End WithEnv.

End CrewSetup.

(** ** The HTTP handler (main.py) *)

Module Main.

(** [class SummarizeRequest(BaseModel)] *)
Record SummarizeRequest : Type := {
  topic : string;
  top_n : option Z
}.

(** The [top_n] member of a request body. *)
Inductive body_field : Type :=
| Absent
| Null
| Given (n : Z).

(** Building the model from a body: [top_n: Optional[int] = 5]. *)
Definition parse_body (topic : string) (top_n : body_field)
  : SummarizeRequest :=
  {| topic := topic;
     top_n := match top_n with
              | Absent => Some 5
              | Null => None
              | Given n => Some n
              end |}.

(** How the handler function ends: it returns [body] to the framework
    ([Http200]), or raises [HTTPException].  What FastAPI then does with
    a returned body under the route's [response_model=SummarizeResponse]
    happens outside the function: see [More.endpoint_status]. *)
Inductive http_response : Type :=
| Http200 (body : CrewSetup.response)
| HTTPException (status_code : Z) (detail : string).

(** Stands for [str(e)] in the detail of the 500 answer. *)
Definition describe (e : exn) : string :=
  match e with
  | TypeError => "TypeError"
  | AttributeError => "AttributeError"
  | ProviderError => "ProviderError"
  | RecursionError => "RecursionError"
  | ValueError => "ValueError"
  end.

(** [req.top_n or 5] *)
Definition top_n_or_5 (top_n : option Z) : Z :=
  match top_n with
  | Some n => if n =? 0 then 5 else n
  | None => 5
  end.

(** Lines 66-71: the pipeline's result, or status 500 with its cause. *)
Definition respond (m : M CrewSetup.response) : list event * http_response :=
  match m with
  | (t, Ok result) => (t, Http200 result)
  | (t, Raise e) =>
      (t, HTTPException 500 ("Crew execution failed: " ++ describe e))
  end.

(** Lines 59-71 *)
Definition summarize (E : Env) (req : SummarizeRequest)
  : list event * http_response :=
  let topic := strip (topic req) in
  if String.eqb topic "" then
    ([], HTTPException 400 "Topic must not be empty")
  else
    let top_n := top_n_or_5 (top_n req) in
    respond (CrewSetup.run_research_crew E topic top_n).

End Main.

(** ** Concrete environments and records *)

Module Sample.

(** [json.loads] on the few texts used below; it is consulted on no
    other. *)
Definition loads (s : string) : loads_outcome :=
  if String.eqb s "[]" then Loaded (PList [])
  else if String.eqb s "{}" then Loaded (PDict [])
  else if String.eqb s "[1]" then Loaded (PList [PInt 1])
  else JSONDecodeError.

Definition attention : arxiv_result :=
  ArxivResult "Attention Is All You Need"
              ["Ashish Vaswani"; "Noam Shazeer"]
              "We propose the Transformer."
              "http://arxiv.org/abs/1706.03762v7"
              (Some "2017-06-12").

Definition bert : arxiv_result :=
  ArxivResult "BERT" ["Jacob Devlin"]
              "We introduce BERT."
              "http://arxiv.org/abs/1810.04805v2"
              None.

(** An environment whose search finds the two papers above; the rest is
    chosen by the arguments: whether the generative client exists, what
    the crew returns ([None]: it raises) and what the generative call
    returns ([None]: it raises). *)
Definition env (configured : bool) (crew : option pyval)
    (reply : option (option string)) : Env :=
  {| GENAI_CLIENT := if configured then Some (fun _ _ => reply) else None;
     GEMINI_MODEL := "gemini-2.5-flash";
     GEMINI_API_KEY := None;
     json_loads := loads;
     arxiv_search := fun _ _ => Yields [attention; bert];
     crew_kickoff := fun _ _ => crew |}.

(** The same with a search provider that raises after one result. *)
Definition env_search_down : Env :=
  {| GENAI_CLIENT := None;
     GEMINI_MODEL := "gemini-2.5-flash";
     GEMINI_API_KEY := None;
     json_loads := loads;
     arxiv_search := fun _ _ => Fails [attention];
     crew_kickoff := fun _ _ => None |}.

Definition complete_summary : dict :=
  [ ("problem", PStr "sequence transduction");
    ("methodology", PStr "self-attention");
    ("findings", PStr "better BLEU");
    ("limitations", PStr "quadratic cost") ].

End Sample.

(** ** The specification's side

    Section 4.4 of the specification lists five shapes of orchestration
    output, tested in order; section 9 names them as a tagged union.
    [shape], [classify] and [embedded_records] follow those words and are
    compared with [dispatch_shape].  The predicates after them state what
    the specification says of the emitted papers. *)

Module Spec.






(** The four keys of a SummaryRecord, and a summary restricted to them
    with the empty string for a key it lacks. *)
Definition summary_keys : list string :=
  ["problem"; "methodology"; "findings"; "limitations"].

Definition four_keys (d : dict) : dict :=
  map (fun k => (k, get_default d k (PStr ""))) summary_keys.

(** The entries of a record list that are record-shaped, in order. *)
Fixpoint records_of (entries : list pyval) : list dict :=
  match entries with
  | [] => []
  | PDict p :: rest => p :: records_of rest
  | _ :: rest => records_of rest
  end.

(** The five fields of a PaperRecord. *)
Definition paper_fields : list string :=
  ["title"; "authors"; "abstract"; "link"; "published"].

Definition is_paper_record (v : pyval) : Prop :=
  exists p, v = PDict p /\ keys p = paper_fields.

(** The summary object of an emitted paper [q]: exactly the four keys,
    each with the upstream value, or the empty string where the upstream
    summary lacks the key. *)
Definition has_summary_record (upstream : dict) (q : pyval) : Prop :=
  exists fields summary,
    q = PDict fields
    /\ lookup "summary" fields = Some (PDict summary)
    /\ keys summary = summary_keys
    /\ forall k, In k summary_keys ->
         (lookup k upstream = None -> lookup k summary = Some (PStr ""))
         /\ (forall v, lookup k upstream = Some v ->
                       lookup k summary = Some v).

(** The paper fields of an emitted paper [q], from the input record
    [p]: all present; title, abstract and link are the input's value, or
    the empty string when that is missing, null or falsy; authors
    likewise with the empty list; published is the input's value
    whatever it is, and null when it is missing. *)
Definition coerced (p : dict) (q : pyval) : Prop :=
  exists fields,
    q = PDict fields
    /\ keys fields = (paper_fields ++ ["summary"])%list
    /\ lookup "title" fields =
         Some (if truthy (get p "title") then get p "title" else PStr "")
    /\ lookup "authors" fields =
         Some (if truthy (get p "authors") then get p "authors"
               else PList [])
    /\ lookup "abstract" fields =
         Some (if truthy (get p "abstract") then get p "abstract"
               else PStr "")
    /\ lookup "link" fields =
         Some (if truthy (get p "link") then get p "link" else PStr "")
    /\ lookup "published" fields =
         Some (match lookup "published" p with
               | Some v => v
               | None => PNone
               end).

(** Claim C6 as it is worded: a field that is missing, null or falsy in
    the input comes out as its default, null for published. *)
Definition defaulted_as_claimed (p : dict) (q : pyval) : Prop :=
  exists fields,
    q = PDict fields
    /\ (forall k, In k paper_fields -> lookup k fields <> None)
    /\ (truthy (get p "title") = false ->
        lookup "title" fields = Some (PStr ""))
    /\ (truthy (get p "authors") = false ->
        lookup "authors" fields = Some (PList []))
    /\ (truthy (get p "abstract") = false ->
        lookup "abstract" fields = Some (PStr ""))
    /\ (truthy (get p "link") = false ->
        lookup "link" fields = Some (PStr ""))
    /\ (truthy (get p "published") = false ->
        lookup "published" fields = Some PNone).

(** Claim C8 as it is worded: the record carries a summary sub-object
    when its summary field is a dict. *)
Definition carries_summary_object (p : dict) : bool :=
  isinstance_dict (get p "summary").

(** Claim C2 as it is worded: whenever the Paper Search Client called
    with [(topic, top_n)] returns a non-empty list, the pipeline returns a
    non-empty papers list. *)
Definition never_empty_when_search_succeeds
    (E : Env) (topic : string) (top_n : Z) : Prop :=
  forall found,
    outcome (CrewSetup._arxiv_search_function E topic top_n) = Ok found ->
    found <> [] ->
    exists r,
      outcome (CrewSetup.run_research_crew E topic top_n) = Ok r
      /\ CrewSetup.resp_papers r <> [].

End Spec.

(** ** Further code of the two files *)

Module More.

Import CrewSetup.

(** crew_setup.py, lines 15-18: the model id read from the environment
    loses a leading [models/]; [raw.split("/", 1)[1]] is what follows the
    first slash, which is the seventh character under that test. *)
Definition normalize_model_id (raw : string) : string :=
  if String.prefix "models/" raw then drop 7 raw else raw.

(** What [LLM(model=..., api_key=...)] is built from. *)
Record LLM : Type := {
  llm_model : string;
  llm_api_key : string
}.

(** Lines 28-34 *)
Definition get_gemini_llm (E : Env) : option LLM :=
  match GEMINI_API_KEY E with
  | Some k =>
      if String.eqb k "" then None
      else Some {| llm_model := "gemini/" ++ GEMINI_MODEL E;
                   llm_api_key := k |}
  | None => None
  end.

Section WithDumps.

(** [json.dumps] on the values the tool passes to it. *)
Variable json_dumps : pyval -> string.

(** Lines 69-78: the tool the search agent is given. *)
Definition arxiv_search_tool (E : Env) (query : string) (max_results : Z)
  : M string :=
  results <- _arxiv_search_function E query max_results ;;
  ret (json_dumps (PList results)).

End WithDumps.

Definition is_generate (ev : event) : bool :=
  match ev with EvGenerate _ _ => true | _ => false end.

(** The five fields [_arxiv_search_function] builds for one result
    (lines 55-61); [paper_of_result r] is the dict of these. *)
Definition fields_of_result (r : arxiv_result) : dict :=
  match paper_of_result r with
  | PDict p => p
  | _ => []
  end.

(** The paper emitted for a search result whose summary is [summary]. *)
Definition paper_with_summary (summary : dict) (r : arxiv_result) : pyval :=
  PDict (fields_of_result r ++ [("summary", PDict summary)]).

(** main.py, lines 39-45: [class PaperSummary(BaseModel)], read as the
    types of its fields: [title], [abstract] and [link] a [str],
    [authors] a list of [str], [published] a [str], null or left out, and
    [summary] a [dict]. *)
Definition list_of_str (v : pyval) : bool :=
  match v with
  | PList l => forallb isinstance_str l
  | _ => false
  end.

Definition optional_str (v : option pyval) : bool :=
  match v with
  | None | Some PNone => true
  | Some v => isinstance_str v
  end.

Definition field_is (check : pyval -> bool) (f : dict) (k : string) : bool :=
  match lookup k f with
  | Some v => check v
  | None => false
  end.

Definition conforms_PaperSummary (q : pyval) : bool :=
  match q with
  | PDict f =>
      field_is isinstance_str f "title"
      && field_is list_of_str f "authors"
      && field_is isinstance_str f "abstract"
      && field_is isinstance_str f "link"
      && optional_str (lookup "published" f)
      && field_is isinstance_dict f "summary"
  | _ => false
  end.

(** A value that is falsy, and so replaced by the default of lines
    248-251, or of the checked type. *)
Definition typed_or_falsy (check : pyval -> bool) (v : pyval) : bool :=
  check v || negb (truthy v).

(** An input record whose title, abstract and link are each falsy or a
    [str], whose authors are falsy or a list of [str], and whose
    published date, which line 252 passes on whatever it is, is missing,
    null or a [str]. *)
Definition well_typed_record (p : dict) : bool :=
  typed_or_falsy isinstance_str (get p "title")
  && typed_or_falsy list_of_str (get p "authors")
  && typed_or_falsy isinstance_str (get p "abstract")
  && typed_or_falsy isinstance_str (get p "link")
  && optional_str (lookup "published" p).

(** A text has no whitespace at its ends. *)
Definition stripped (s : string) : Prop := strip s = s.

(** Line 156: [getattr(resp, "text", None) or "{}"] *)
Definition reply_text (resp : option string) : string :=
  match resp with
  | Some t => if String.eqb t "" then "{}" else t
  | None => "{}"
  end.

(** Lines 148-154: what the prompt is made of, once the authors are
    joined. *)
Definition prompt_of (paper : dict) (authors : string) : prompt :=
  Prompt (get_default paper "title" (PStr "")) authors
         (get_default paper "abstract" (PStr "")).

(** The direct searches lines 234-240 make for a record list [papers]:
    none when [len(papers)] raises or [papers] is truthy, one
    otherwise. *)
Definition fallback_searches (papers : pyval) : nat :=
  match len papers with
  | None => 0
  | Some _ => if truthy papers then 0 else 1
  end.

(** The same for what the dispatch of lines 200-232 ended with: when it
    raised, nothing is searched. *)
Definition searches_after (shaped : result pyval) : nat :=
  match shaped with
  | Ok papers => fallback_searches papers
  | Raise _ => 0
  end.

(** A logged provider call names the configured model. *)
Definition uses_model (E : Env) (ev : event) : Prop :=
  match ev with
  | EvGenerate m _ => m = GEMINI_MODEL E
  | _ => True
  end.

(** The status of the way the handler ended: that of the exception it
    raised, and 200 for a body it returned, which is the answer's status
    when the body passes the route's response model. *)
Definition status_of (r : Main.http_response) : Z :=
  match r with
  | Main.Http200 _ => 200
  | Main.HTTPException code _ => code
  end.

(** main.py, line 59: the route is declared with
    [response_model=SummarizeResponse], so FastAPI validates the body the
    handler returns against that model after the handler has returned,
    out of reach of its [try]: a body that validates is answered with
    status 200 and one that does not with status 500; an [HTTPException]
    is answered with its own status.  The validation is pydantic's and is
    a parameter here. *)
Definition endpoint_status (validates : response -> bool)
    (r : Main.http_response) : Z :=
  match r with
  | Main.Http200 body => if validates body then 200 else 500
  | Main.HTTPException code _ => code
  end.

(** A validation that accepts the bodies whose papers all have exactly
    the field types [PaperSummary] declares. *)
Definition exact_types (r : response) : bool :=
  forallb conforms_PaperSummary (resp_papers r).

End More.

(** Environments for the further properties. *)

Module Sample2.

Definition quote : string := String (ascii_of_nat 34) "".

(** The text of the JSON object with the one member [papers], an empty
    array. *)
Definition object_text : string :=
  "{" ++ quote ++ "papers" ++ quote ++ ": []}".

Fixpoint replicate (n : nat) (c : ascii) : string :=
  match n with
  | O => EmptyString
  | S n' => String c (replicate n' c)
  end.

(** Two thousand opening brackets: [json.loads] gives up on the nesting
    with [RecursionError] before it can reject the text. *)
Definition deep_text : string := replicate 2000 "["%char.

(** [json.loads] on the texts used below. *)
Definition loads (s : string) : loads_outcome :=
  if String.eqb s "[]" then Loaded (PList [])
  else if String.eqb s "{}" then Loaded (PDict [])
  else if String.eqb s "42" then Loaded (PInt 42)
  else if String.eqb s "null" then Loaded PNone
  else if String.eqb s "[1]" then Loaded (PList [PInt 1])
  else if String.eqb s object_text then Loaded (PDict [("papers", PList [])])
  else if String.eqb s deep_text then LoadsRaises RecursionError
  else JSONDecodeError.

(** [json.dumps] on the empty list, the one value it is given below. *)
Definition dumps (v : pyval) : string :=
  match v with
  | PList [] => "[]"
  | _ => "?"
  end.

(** An environment given by its generative client, its crew and what its
    search provider does. *)
Definition env (client : option genai_client) (crew : option pyval)
    (provider : provider_outcome) (key : option string) : Env :=
  {| GENAI_CLIENT := client;
     GEMINI_MODEL := "gemini-2.0-pro";
     GEMINI_API_KEY := key;
     json_loads := loads;
     arxiv_search := fun _ _ => provider;
     crew_kickoff := fun _ _ => crew |}.

(** A client that answers every prompt with the same reply. *)
Definition replying (reply : option (option string)) : genai_client :=
  fun _ _ => reply.

End Sample2.

Import CrewSetup Spec.

(** ** Properties *)

(** *** The call-log monad *)

Lemma bind_Ok {A B} (m : M A) (f : A -> M B) t a :
  m = (t, Ok a) ->
  bind m f = ((t ++ trace (f a))%list, outcome (f a)).
Proof.
  intros ->. unfold bind, trace, outcome. now destruct (f a).
Qed.

Lemma bind_Raise {A B} (m : M A) (f : A -> M B) t e :
  m = (t, Raise e) -> bind m f = (t, Raise e).
Proof. now intros ->. Qed.

Lemma bind_inv_Ok {A B} (m : M A) (f : A -> M B) t b :
  bind m f = (t, Ok b) ->
  exists t1 a t2,
    m = (t1, Ok a) /\ f a = (t2, Ok b) /\ t = (t1 ++ t2)%list.
Proof.
  destruct m as [t1 [a | e]]; cbn.
  - destruct (f a) as [t2 r] eqn:Hf. intros [= <- ->].
    now exists t1, a, t2.
  - discriminate.
Qed.

Lemma trace_bind {A B} (m : M A) (f : A -> M B) :
  trace (bind m f) =
  (trace m ++ match outcome m with
              | Ok a => trace (f a)
              | Raise _ => []
              end)%list.
Proof.
  destruct m as [t [a | e]]; cbn.
  - now destruct (f a).
  - now rewrite app_nil_r.
Qed.

Lemma outcome_bind {A B} (m : M A) (f : A -> M B) :
  outcome (bind m f) =
  match outcome m with
  | Ok a => outcome (f a)
  | Raise e => Raise e
  end.
Proof.
  destruct m as [t [a | e]]; cbn; [now destruct (f a) | reflexivity].
Qed.

Lemma count_app p t1 t2 :
  count p (t1 ++ t2) = (count p t1 + count p t2)%nat.
Proof. unfold count. now rewrite filter_app, length_app. Qed.

(** *** Python strings *)

Lemma lstrip_all_space s : all_space s = true -> lstrip s = "".
Proof.
  induction s as [| c r IH]; cbn; [reflexivity |].
  intros H. apply andb_prop in H as [Hc Hr]. now rewrite Hc, IH.
Qed.

Lemma strip_all_space s : all_space s = true -> strip s = "".
Proof. intros H. unfold strip. now rewrite lstrip_all_space. Qed.

Lemma lstrip_not_all_space s :
  all_space s = false ->
  exists c r, lstrip s = String c r /\ isspace c = false.
Proof.
  induction s as [| c r IH]; cbn; [discriminate |].
  destruct (isspace c) eqn:Hc; cbn; intros H.
  - now apply IH.
  - now exists c, r.
Qed.

Lemma rstrip_keeps_head c r : isspace c = false -> rstrip (String c r) <> "".
Proof.
  intros Hc. cbn. destruct (rstrip r); [now rewrite Hc | discriminate].
Qed.

Lemma strip_not_all_space s : all_space s = false -> strip s <> "".
Proof.
  intros H. destruct (lstrip_not_all_space s H) as (c & r & Hl & Hc).
  unfold strip. rewrite Hl. now apply rstrip_keeps_head.
Qed.

(** [strip] leaves the empty string exactly for a blank text. *)
Lemma strip_empty_iff s : strip s = "" <-> all_space s = true.
Proof.
  split.
  - destruct (all_space s) eqn:H; [reflexivity |].
    intros Hs. now apply strip_not_all_space in H.
  - apply strip_all_space.
Qed.

(** *** Paper Search Client *)

Lemma paper_of_result_is_record r : is_paper_record (paper_of_result r).
Proof. unfold is_paper_record, paper_of_result. eexists. now split. Qed.

Lemma search_unfold E query max_results :
  _arxiv_search_function E query max_results =
  ([EvSearch query max_results],
   Ok match arxiv_search E query max_results with
      | Yields rs => map paper_of_result rs
      | Fails _ => []
      end).
Proof.
  unfold _arxiv_search_function.
  now destruct (arxiv_search E query max_results).
Qed.

Lemma search_returns_records E query max_results papers :
  outcome (_arxiv_search_function E query max_results) = Ok papers ->
  Forall is_paper_record papers.
Proof.
  rewrite search_unfold. cbn. intros [= <-].
  destruct (arxiv_search E query max_results); [| constructor].
  apply Forall_forall. intros v Hv. apply in_map_iff in Hv as (r & <- & _).
  apply paper_of_result_is_record.
Qed.

Lemma search_total E query max_results :
  exists papers,
    outcome (_arxiv_search_function E query max_results) = Ok papers.
Proof. rewrite search_unfold. cbn. eauto. Qed.

(** C7. For every query and result bound the Paper Search Client logs
    one search call and returns a list, each entry a record with the five
    paper fields; when the provider raises, even after having yielded
    results, the list is empty and nothing is raised to the caller. *)
Theorem arxiv_search_always_returns_list E query max_results :
  (exists papers,
      _arxiv_search_function E query max_results =
        ([EvSearch query max_results], Ok papers)
      /\ Forall is_paper_record papers)
  /\ (forall yielded,
        arxiv_search E query max_results = Fails yielded ->
        outcome (_arxiv_search_function E query max_results) = Ok []).
Proof.
  split.
  - eexists. split; [apply search_unfold |].
    eapply search_returns_records. now rewrite search_unfold.
  - intros yielded H. now rewrite search_unfold, H.
Qed.

Lemma arxiv_search_provider_down :
  arxiv_search Sample.env_search_down "graph neural networks" 5 =
    Fails [Sample.attention]
  /\ outcome (_arxiv_search_function Sample.env_search_down
                "graph neural networks" 5) = Ok [].
Proof.
  split; [reflexivity |].
  exact (proj2 (arxiv_search_always_returns_list Sample.env_search_down
                  "graph neural networks" 5)
               [Sample.attention] eq_refl).
Defined.

(** *** Summarization Client *)

(** The client is missing: the empty record, and no provider call. *)
Lemma summarize_unconfigured E paper :
  GENAI_CLIENT E = None ->
  _summarize_with_gemini E paper = ([EvSummarize paper], Ok empty_summary).
Proof. intros H. unfold _summarize_with_gemini. now rewrite H. Qed.

(** The reply is not JSON once cleaned, or [json.loads] raises anything
    else on it: the empty record. *)
Lemma summarize_unparsable E client paper authors reply :
  GENAI_CLIENT E = Some client ->
  join ", " (get_default paper "authors" (PList [])) = Some authors ->
  client (GEMINI_MODEL E)
    (Prompt (get_default paper "title" (PStr "")) authors
            (get_default paper "abstract" (PStr ""))) = Some (Some reply) ->
  reply <> "" ->
  (forall v, json_loads E (_clean_json_text reply) <> Loaded v) ->
  outcome (_summarize_with_gemini E paper) = Ok empty_summary.
Proof.
  intros Hc Hj Hg Hne Hl. unfold _summarize_with_gemini.
  rewrite Hc, Hj. cbn. rewrite Hg. cbn.
  destruct (String.eqb_spec reply ""); [contradiction |].
  destruct (json_loads E (_clean_json_text reply)) as [v | | e];
    [now destruct (Hl v) | reflexivity | reflexivity].
Qed.

(** The generative call raises: so does the Summarization Client, as
    the call is made outside its [try]. *)
Lemma summarize_call_raises E client paper authors :
  GENAI_CLIENT E = Some client ->
  join ", " (get_default paper "authors" (PList [])) = Some authors ->
  client (GEMINI_MODEL E)
    (Prompt (get_default paper "title" (PStr "")) authors
            (get_default paper "abstract" (PStr ""))) = None ->
  outcome (_summarize_with_gemini E paper) = Raise ProviderError.
Proof.
  intros Hc Hj Hg. unfold _summarize_with_gemini.
  rewrite Hc, Hj. cbn. now rewrite Hg.
Qed.

(** Authors that are not all strings: [', '.join] raises before the
    provider is called. *)
Lemma summarize_join_raises E client paper :
  GENAI_CLIENT E = Some client ->
  join ", " (get_default paper "authors" (PList [])) = None ->
  _summarize_with_gemini E paper = ([EvSummarize paper], Raise TypeError).
Proof.
  intros Hc Hj. unfold _summarize_with_gemini. now rewrite Hc, Hj.
Qed.

Lemma summarize_trace_head E paper :
  exists rest,
    trace (_summarize_with_gemini E paper) = EvSummarize paper :: rest
    /\ (rest = [] \/ exists model contents, rest = [EvGenerate model contents]).
Proof.
  unfold _summarize_with_gemini.
  destruct (GENAI_CLIENT E) as [client |]; cbn;
    [| eexists; split; [reflexivity | now left]].
  destruct (join ", " (get_default paper "authors" (PList []))) as [a |];
    cbn; [| eexists; split; [reflexivity | now left]].
  destruct (client (GEMINI_MODEL E) _) as [resp |]; cbn.
  - match goal with
    | |- context [json_loads E ?x] => destruct (json_loads E x)
    end; cbn; eexists; (split; [reflexivity | right; eauto]).
  - eexists; split; [reflexivity | right; eauto].
Qed.

Lemma summarize_counts E paper :
  count is_summarize (trace (_summarize_with_gemini E paper)) = 1%nat
  /\ count is_search (trace (_summarize_with_gemini E paper)) = 0%nat.
Proof.
  destruct (summarize_trace_head E paper) as (rest & -> & [-> | (m & c & ->)]);
    now split.
Qed.

(** C1. With a configured client whose generative call raises, the
    Summarization Client raises instead of returning the empty record;
    the exception leaves [run_research_crew] and the request ends with
    status 500. *)
Theorem summarize_call_failure_fails_request :
  outcome (_summarize_with_gemini (Sample.env true None None)
             (base_of [("title", PStr "BERT")]))
    = Raise ProviderError
  /\ outcome (run_research_crew (Sample.env true None None)
                "transformer attention" 2)
    = Raise ProviderError
  /\ snd (Main.summarize (Sample.env true None None)
            (Main.parse_body "transformer attention" (Main.Given 2)))
    = Main.HTTPException 500 "Crew execution failed: ProviderError".
Proof. repeat split; reflexivity. Qed.

(** *** The HTTP handler *)

(** C9. A request whose topic is empty or made of whitespace only is
    answered with status 400, and the call log is empty: neither the
    pipeline nor any provider has been invoked. *)
Theorem blank_topic_rejected E (req : Main.SummarizeRequest) :
  all_space (Main.topic req) = true ->
  Main.summarize E req =
    ([], Main.HTTPException 400 "Topic must not be empty").
Proof.
  intros H. unfold Main.summarize. now rewrite (strip_all_space _ H).
Qed.

Lemma blank_topic_rejected_tabs :
  all_space (String (ascii_of_nat 9) "  ") = true
  /\ Main.summarize (Sample.env true None None)
       (Main.parse_body (String (ascii_of_nat 9) "  ") (Main.Given 3))
     = ([], Main.HTTPException 400 "Topic must not be empty").
Proof.
  split; [reflexivity |].
  apply (blank_topic_rejected (Sample.env true None None)
           (Main.parse_body (String (ascii_of_nat 9) "  ") (Main.Given 3))).
  reflexivity.
Defined.

Lemma run_trace_head E topic top_n :
  exists rest, trace (run_research_crew E topic top_n)
               = EvCrew topic top_n :: rest.
Proof.
  unfold run_research_crew. rewrite trace_bind.
  unfold orchestrate at 1. rewrite trace_bind. cbn. eauto.
Qed.

(** C10. When [top_n] is absent from the body, null or zero, and the
    topic is not blank, the handler runs the pipeline on the stripped
    topic with [top_n = 5]: its answer is the pipeline's, and the first
    logged call is the crew's with 5. *)
Theorem falsy_top_n_runs_pipeline_with_5 E topic (field : Main.body_field) :
  field = Main.Absent \/ field = Main.Null \/ field = Main.Given 0 ->
  all_space topic = false ->
  Main.summarize E (Main.parse_body topic field) =
    Main.respond (run_research_crew E (strip topic) 5)
  /\ exists rest,
       fst (Main.summarize E (Main.parse_body topic field)) =
         EvCrew (strip topic) 5 :: rest.
Proof.
  intros Hf Hs.
  assert (Hrun : Main.summarize E (Main.parse_body topic field) =
                 Main.respond (run_research_crew E (strip topic) 5)).
  { unfold Main.summarize. cbn [Main.topic Main.top_n Main.parse_body].
    destruct (String.eqb_spec (strip topic) "") as [He | _].
    - now apply strip_not_all_space in Hs.
    - now destruct Hf as [-> | [-> | ->]]. }
  split; [exact Hrun |]. rewrite Hrun.
  destruct (run_trace_head E (strip topic) 5) as (rest & Hrest).
  exists rest. unfold Main.respond, trace in *.
  now destruct (run_research_crew E (strip topic) 5) as [t [r | e]].
Qed.

Lemma null_top_n_runs_pipeline_with_5 :
  exists rest,
    fst (Main.summarize (Sample.env false None None)
           (Main.parse_body " diffusion models " Main.Null)) =
      EvCrew "diffusion models" 5 :: rest.
Proof.
  exact (proj2 (falsy_top_n_runs_pipeline_with_5
                  (Sample.env false None None) " diffusion models "
                  Main.Null (or_intror (or_introl eq_refl)) eq_refl)).
Defined.

(** *** The shape of the orchestration output *)

Lemma dispatch_str E s : dispatch_shape E (PStr s) = loads_or_empty E s.
Proof. reflexivity. Qed.

Lemma dispatch_list E l : dispatch_shape E (PList l) = Ok (PList l).
Proof. reflexivity. Qed.

Lemma dispatch_wrapper_str E s :
  dispatch_shape E (PObj [("raw", PStr s)]) = loads_or_empty E s.
Proof. reflexivity. Qed.


(** An exception of [json.loads] that is not [JSONDecodeError] is not
    caught at lines 206 and 219: the dispatch ends with it. *)
Lemma dispatch_loads_raises E s e :
  json_loads E s = LoadsRaises e ->
  dispatch_shape E (PStr s) = Raise e
  /\ dispatch_shape E (PObj [("raw", PStr s)]) = Raise e.
Proof.
  intros H. rewrite dispatch_str, dispatch_wrapper_str.
  unfold loads_or_empty. now rewrite H.
Qed.

(** A text that parses gives what it parses to, a list or not. *)
Lemma dispatch_loads_value E s v :
  json_loads E s = Loaded v ->
  dispatch_shape E (PStr s) = Ok v
  /\ dispatch_shape E (PObj [("raw", PStr s)]) = Ok v.
Proof.
  intros H. rewrite dispatch_str, dispatch_wrapper_str.
  unfold loads_or_empty. now rewrite H.
Qed.




(** *** The loop over the record list *)

Lemma lookup_not_in k (d : dict) : ~ In k (keys d) -> lookup k d = None.
Proof.
  induction d as [| [k' v] d IH]; cbn; [reflexivity |].
  intros H. destruct (String.eqb_spec k k') as [-> | _].
  - exfalso. apply H. now left.
  - apply IH. intros Hin. apply H. now right.
Qed.

Lemma enrich_record_unfold E p :
  enrich_record E p =
  (summary <- summary_for E p (base_of p) ;;
   match summary with
   | PDict d =>
       ret (PDict (base_of p ++ [("summary", PDict (four_keys d))]))
   | _ => raise AttributeError
   end).
Proof.
  unfold enrich_record.
  destruct (summary_for E p (base_of p)) as [t [[] | e]]; reflexivity.
Qed.

Lemma enrich_record_Ok_inv E p t q :
  enrich_record E p = (t, Ok q) ->
  exists d,
    summary_for E p (base_of p) = (t, Ok (PDict d))
    /\ q = PDict (base_of p ++ [("summary", PDict (four_keys d))]).
Proof.
  rewrite enrich_record_unfold. intros H.
  apply bind_inv_Ok in H as (t1 & s & t2 & Hs & Hk & ->).
  destruct s; try discriminate. injection Hk as <- <-.
  exists kvs. now rewrite app_nil_r.
Qed.

Lemma enrich_record_Ok E p t d :
  summary_for E p (base_of p) = (t, Ok (PDict d)) ->
  enrich_record E p =
    (t, Ok (PDict (base_of p ++ [("summary", PDict (four_keys d))]))).
Proof.
  intros H. rewrite enrich_record_unfold, (bind_Ok _ _ _ _ H). cbn.
  now rewrite app_nil_r.
Qed.

Lemma enrich_record_trace E p :
  trace (enrich_record E p) = trace (summary_for E p (base_of p)).
Proof.
  rewrite enrich_record_unfold, trace_bind.
  destruct (outcome (summary_for E p (base_of p))) as [[] | e];
    apply app_nil_r.
Qed.

Lemma summary_for_counts E p base :
  count is_summarize (trace (summary_for E p base)) =
    (if needs_summary (get p "summary") then 1 else 0)%nat
  /\ count is_search (trace (summary_for E p base)) = 0%nat.
Proof.
  unfold summary_for. destruct (needs_summary (get p "summary")).
  - apply summarize_counts.
  - now split.
Qed.

Lemma enrich_all_cons_record E p rest :
  enrich_all E (PDict p :: rest) =
  (q <- enrich_record E p ;;
   normalized <- enrich_all E rest ;;
   ret (q :: normalized)).
Proof. reflexivity. Qed.

Lemma enrich_all_cons_skip E v rest :
  isinstance_dict v = false ->
  enrich_all E (v :: rest) = enrich_all E rest.
Proof. now destruct v. Qed.

Lemma records_of_cons_skip v rest :
  isinstance_dict v = false -> records_of (v :: rest) = records_of rest.
Proof. now destruct v. Qed.

(** Induction over a record list along the two cases of the loop: a
    record-shaped entry, and an entry that is skipped. *)
Lemma entries_ind (P : list pyval -> Prop) :
  P [] ->
  (forall p rest, P rest -> P (PDict p :: rest)) ->
  (forall v rest, isinstance_dict v = false -> P rest -> P (v :: rest)) ->
  forall entries, P entries.
Proof.
  intros Hnil Hrec Hskip. induction entries as [| v rest IH]; [exact Hnil |].
  destruct (isinstance_dict v) eqn:Hv.
  - destruct v; try discriminate. now apply Hrec.
  - now apply Hskip.
Qed.

(** A completed step of the loop on a record-shaped entry. *)
Lemma enrich_all_cons_Ok_inv E p rest t out :
  enrich_all E (PDict p :: rest) = (t, Ok out) ->
  exists t1 q t2 qs,
    enrich_record E p = (t1, Ok q)
    /\ enrich_all E rest = (t2, Ok qs)
    /\ t = (t1 ++ t2)%list /\ out = q :: qs.
Proof.
  rewrite enrich_all_cons_record. intros H.
  apply bind_inv_Ok in H as (t1 & q & t' & Hq & H & ->).
  apply bind_inv_Ok in H as (t2 & qs & t3 & Hqs & H & ->).
  injection H as <- <-. exists t1, q, t2, qs. now rewrite app_nil_r.
Qed.

(** Each emitted paper comes from one record-shaped entry, in order. *)
Lemma enrich_all_Ok_inv E entries :
  forall t out,
    enrich_all E entries = (t, Ok out) ->
    Forall2 (fun p q => exists t', enrich_record E p = (t', Ok q))
            (records_of entries) out.
Proof.
  induction entries as [| p rest IH | v rest Hv IH] using entries_ind;
    intros t out H.
  - injection H as <- <-. constructor.
  - apply enrich_all_cons_Ok_inv in H as (t1 & q & t2 & qs & Hq & Hqs & -> & ->).
    cbn [records_of]. constructor; [now exists t1 | now apply (IH t2)].
  - rewrite (enrich_all_cons_skip E v rest Hv) in H.
    rewrite (records_of_cons_skip v rest Hv). now apply (IH t).
Qed.

Lemma enrich_all_no_search E entries :
  count is_search (trace (enrich_all E entries)) = 0%nat.
Proof.
  induction entries as [| p rest IH | v rest Hv IH] using entries_ind.
  - reflexivity.
  - rewrite enrich_all_cons_record, trace_bind, count_app,
            enrich_record_trace.
    rewrite (proj2 (summary_for_counts E p (base_of p))).
    destruct (outcome (enrich_record E p)); [| reflexivity].
    rewrite trace_bind, count_app, IH.
    now destruct (outcome (enrich_all E rest)).
  - now rewrite (enrich_all_cons_skip E v rest Hv).
Qed.

(** On a run of the loop that completes, the Summarization Client is
    entered once per record whose summary is unusable. *)
Lemma enrich_all_summarize_count E entries :
  forall t out,
    enrich_all E entries = (t, Ok out) ->
    count is_summarize t =
    List.length (filter (fun p => needs_summary (get p "summary"))
                        (records_of entries)).
Proof.
  induction entries as [| p rest IH | v rest Hv IH] using entries_ind;
    intros t out H.
  - now injection H as <- <-.
  - apply enrich_all_cons_Ok_inv in H as (t1 & q & t2 & qs & Hq & Hqs & -> & ->).
    rewrite count_app, (IH _ _ Hqs).
    assert (Ht1 : t1 = trace (enrich_record E p)) by now rewrite Hq.
    rewrite Ht1, enrich_record_trace,
            (proj1 (summary_for_counts E p (base_of p))).
    cbn [records_of filter].
    now destruct (needs_summary (get p "summary")).
  - rewrite (enrich_all_cons_skip E v rest Hv) in H.
    rewrite (records_of_cons_skip v rest Hv). now apply (IH t out).
Qed.

(** The loop completes when every record's summary is, or is generated
    as, a JSON object; it then emits one paper per record. *)
Lemma enrich_all_succeeds E entries :
  (forall p, In p (records_of entries) ->
     exists d, outcome (summary_for E p (base_of p)) = Ok (PDict d)) ->
  exists out,
    outcome (enrich_all E entries) = Ok out
    /\ List.length out = List.length (records_of entries).
Proof.
  induction entries as [| p rest IH | v rest Hv IH] using entries_ind;
    intros H.
  - now exists [].
  - cbn [records_of] in H.
    destruct (H p (or_introl eq_refl)) as (d & Hd).
    destruct IH as (out & Hout & Hlen).
    { intros p' Hp'. apply H. now right. }
    destruct (summary_for E p (base_of p)) as [t r] eqn:Hs.
    cbn in Hd. subst r.
    exists (PDict (base_of p ++ [("summary", PDict (four_keys d))]) :: out).
    rewrite enrich_all_cons_record, outcome_bind,
            (enrich_record_Ok E p _ _ Hs).
    cbn [outcome snd]. rewrite outcome_bind, Hout. cbn.
    split; [reflexivity | now rewrite Hlen].
  - rewrite (enrich_all_cons_skip E v rest Hv).
    rewrite (records_of_cons_skip v rest Hv) in *. now apply IH.
Qed.

(** *** What [run_research_crew] emits *)

Lemma run_Ok_inv E topic top_n t r :
  run_research_crew E topic top_n = (t, Ok r) ->
  exists entries t',
    enrich_all E entries = (t', Ok (resp_papers r)).
Proof.
  unfold run_research_crew. intros H.
  apply bind_inv_Ok in H as (t1 & result & t2 & _ & H & _).
  unfold normalize in H.
  apply bind_inv_Ok in H as (t0 & shaped & t0' & _ & H & _).
  apply bind_inv_Ok in H as (t3 & papers & t4 & _ & H & _).
  apply bind_inv_Ok in H as (t5 & entries & t6 & _ & H & _).
  unfold enrich_and_respond in H.
  apply bind_inv_Ok in H as (t7 & out & t8 & Hout & H & _).
  injection H as _ <-. now exists entries, t7.
Qed.

Lemma four_keys_summary_record upstream base :
  ~ In "summary" (keys base) ->
  has_summary_record upstream
    (PDict (base ++ [("summary", PDict (four_keys upstream))])).
Proof.
  intros Hbase.
  exists (base ++ [("summary", PDict (four_keys upstream))])%list,
         (four_keys upstream).
  split; [reflexivity |]. split.
  - clear - Hbase. induction base as [| [k v] base IH]; [reflexivity |].
    cbn [app lookup]. cbn [keys map fst In] in Hbase.
    destruct (String.eqb_spec "summary" k) as [Hk | _].
    + exfalso. apply Hbase. left. now symmetry.
    + apply IH. intros Hin. apply Hbase. now right.
  - split; [reflexivity |].
    intros k Hk.
    cbn in Hk. destruct Hk as [<- | [<- | [<- | [<- | []]]]];
      cbn; unfold get_default;
      (split; [intros -> | intros v ->]; reflexivity).
Qed.

Lemma base_of_has_no_summary p : ~ In "summary" (keys (base_of p)).
Proof. cbn. intuition discriminate. Qed.

Lemma enrich_record_summary E p t q :
  enrich_record E p = (t, Ok q) ->
  exists upstream,
    outcome (summary_for E p (base_of p)) = Ok (PDict upstream)
    /\ has_summary_record upstream q.
Proof.
  intros H. apply enrich_record_Ok_inv in H as (d & Hd & ->).
  exists d. split; [now rewrite Hd |].
  apply four_keys_summary_record, base_of_has_no_summary.
Qed.

Lemma run_summary_records E topic top_n t r :
  run_research_crew E topic top_n = (t, Ok r) ->
  Forall (fun q => exists upstream, has_summary_record upstream q)
         (resp_papers r).
Proof.
  intros H.
  apply run_Ok_inv in H as (entries & t' & H).
  apply enrich_all_Ok_inv in H.
  induction H as [| p q ps qs (t1 & Hq) _ IH]; constructor; [| exact IH].
  apply enrich_record_summary in Hq as (upstream & _ & Hq). now exists upstream.
Qed.

(** C5. Whatever the record and its embedded summary, a paper emitted
    for it has a summary object with exactly the keys problem,
    methodology, findings and limitations, each holding the value of the
    summary used (the embedded one or the Summarization Client's) or the
    empty string where that summary lacks the key; so has every paper in
    the list [run_research_crew] returns. *)
Theorem emitted_summary_has_four_keys E :
  (forall p t q,
      enrich_record E p = (t, Ok q) ->
      exists upstream,
        outcome (summary_for E p (base_of p)) = Ok (PDict upstream)
        /\ has_summary_record upstream q)
  /\ (forall topic top_n t r,
        run_research_crew E topic top_n = (t, Ok r) ->
        Forall (fun q => exists upstream, has_summary_record upstream q)
               (resp_papers r)).
Proof.
  split; [apply enrich_record_summary | apply run_summary_records].
Qed.

(** A record whose embedded summary has one of the four keys, an extra
    key, and lacks the other three. *)
Lemma emitted_summary_partial_upstream :
  exists upstream,
    outcome (summary_for (Sample.env true None None)
               [("title", PStr "BERT");
                ("summary", PDict [("findings", PStr "SOTA on GLUE");
                                   ("score", PInt 9)])]
               (base_of [("title", PStr "BERT");
                ("summary", PDict [("findings", PStr "SOTA on GLUE");
                                   ("score", PInt 9)])]))
      = Ok (PDict upstream)
    /\ has_summary_record upstream
         (PDict [("title", PStr "BERT"); ("authors", PList []);
                 ("abstract", PStr ""); ("link", PStr "");
                 ("published", PNone);
                 ("summary", PDict [("problem", PStr "");
                                    ("methodology", PStr "");
                                    ("findings", PStr "SOTA on GLUE");
                                    ("limitations", PStr "")])]).
Proof.
  exact (proj1 (emitted_summary_has_four_keys (Sample.env true None None))
           [("title", PStr "BERT");
            ("summary", PDict [("findings", PStr "SOTA on GLUE");
                               ("score", PInt 9)])]
           [] _ eq_refl).
Defined.

Lemma enrich_record_coerced E p t q :
  enrich_record E p = (t, Ok q) -> coerced p q.
Proof.
  intros H. apply enrich_record_Ok_inv in H as (d & _ & ->).
  eexists. split; [reflexivity |].
  unfold base_of, py_or, get, get_default. cbn.
  repeat split; reflexivity.
Qed.

(** C6 (amended). Every paper emitted by the loop, and so every paper
    [run_research_crew] returns, has the fields title, authors, abstract,
    link, published and summary, in the order of the record-shaped
    entries.  Title, abstract and link missing, null or falsy become the
    empty string and authors the empty list; published becomes null only
    when it is missing, and any value it carries, falsy or not, is
    kept. *)
Theorem emitted_paper_fields_coerced E :
  (forall entries t out,
      enrich_all E entries = (t, Ok out) ->
      Forall2 coerced (records_of entries) out)
  /\ (forall topic top_n t r,
        run_research_crew E topic top_n = (t, Ok r) ->
        Forall (fun q => exists p, coerced p q) (resp_papers r)).
Proof.
  assert (Hloop : forall entries t out,
             enrich_all E entries = (t, Ok out) ->
             Forall2 coerced (records_of entries) out).
  { intros entries t out H. apply enrich_all_Ok_inv in H.
    induction H as [| p q ps qs (t1 & Hq) _ IH]; constructor; [| exact IH].
    now apply enrich_record_coerced in Hq. }
  split; [exact Hloop |].
  intros topic top_n t r H.
  apply run_Ok_inv in H as (entries & t' & H). apply Hloop in H.
  induction H as [| p q ps qs Hq _ IH]; constructor; [now exists p | exact IH].
Qed.

Lemma emitted_paper_fields_sparse_record :
  Forall2 coerced
    (records_of [PStr "noise"; PDict [("title", PNone); ("link", PStr "x")]])
    [PDict [("title", PStr ""); ("authors", PList []);
            ("abstract", PStr ""); ("link", PStr "x");
            ("published", PNone);
            ("summary", PDict [("problem", PStr "");
                               ("methodology", PStr "");
                               ("findings", PStr "");
                               ("limitations", PStr "")])]].
Proof.
  exact (proj1 (emitted_paper_fields_coerced (Sample.env false None None))
           [PStr "noise"; PDict [("title", PNone); ("link", PStr "x")]]
           _ _ eq_refl).
Defined.

(** C6 as worded fails: a record whose published field is the empty
    string, a falsy value, is emitted with published still the empty
    string, not null. *)
Lemma falsy_published_is_kept :
  outcome (enrich_all (Sample.env false None None)
             [PDict [("title", PStr "BERT"); ("published", PStr "")]])
  = Ok [PDict [("title", PStr "BERT"); ("authors", PList []);
               ("abstract", PStr ""); ("link", PStr "");
               ("published", PStr "");
               ("summary", PDict [("problem", PStr "");
                                  ("methodology", PStr "");
                                  ("findings", PStr "");
                                  ("limitations", PStr "")])]]
  /\ truthy (get [("title", PStr "BERT"); ("published", PStr "")]
                 "published") = false
  /\ ~ defaulted_as_claimed
         [("title", PStr "BERT"); ("published", PStr "")]
         (PDict [("title", PStr "BERT"); ("authors", PList []);
                 ("abstract", PStr ""); ("link", PStr "");
                 ("published", PStr "");
                 ("summary", PDict [("problem", PStr "");
                                    ("methodology", PStr "");
                                    ("findings", PStr "");
                                    ("limitations", PStr "")])]).
Proof.
  split; [reflexivity |]. split; [reflexivity |].
  intros (fields & Hq & _ & _ & _ & _ & _ & Hpub).
  injection Hq as <-. specialize (Hpub eq_refl). discriminate Hpub.
Qed.

(** *** When the Summarization Client is invoked *)

Lemma summary_for_embedded E p base d :
  get p "summary" = PDict d -> d <> [] ->
  summary_for E p base = ([], Ok (PDict d)).
Proof.
  intros Hs Hd. unfold summary_for. rewrite Hs.
  now destruct d.
Qed.

(** C8 (amended). Processing one record enters the Summarization Client
    exactly once when its summary field is missing, falsy (the empty dict
    included) or not a dict, and not at all otherwise; an entry that is
    not a record causes no call; a record embedding a non-empty summary
    dict is emitted without any call, with that dict's values and the
    empty string for the keys it lacks; and over a completed loop the
    calls number the records whose summary is unusable. *)
Theorem summarizer_invoked_iff_summary_unusable E :
  (forall p,
      count is_summarize (trace (enrich_record E p)) =
        (if needs_summary (get p "summary") then 1 else 0)%nat)
  /\ (forall v, isinstance_dict v = false -> trace (enrich_all E [v]) = [])
  /\ (forall p d,
        get p "summary" = PDict d -> d <> [] ->
        enrich_record E p =
          ([], Ok (PDict (base_of p ++ [("summary", PDict (four_keys d))]))))
  /\ (forall entries t out,
        enrich_all E entries = (t, Ok out) ->
        count is_summarize t =
          List.length (filter (fun p => needs_summary (get p "summary"))
                              (records_of entries))).
Proof.
  split.
  { intros p. rewrite enrich_record_trace.
    apply (summary_for_counts E p (base_of p)). }
  split.
  { intros v Hv. now rewrite (enrich_all_cons_skip E v [] Hv). }
  split.
  { intros p d Hs Hd. apply enrich_record_Ok.
    now apply summary_for_embedded. }
  apply enrich_all_summarize_count.
Qed.

Lemma complete_summary_needs_no_call :
  enrich_record (Sample.env true None None)
    [("title", PStr "Attention Is All You Need");
     ("summary", PDict Sample.complete_summary)]
  = ([], Ok (PDict [("title", PStr "Attention Is All You Need");
                    ("authors", PList []); ("abstract", PStr "");
                    ("link", PStr ""); ("published", PNone);
                    ("summary", PDict Sample.complete_summary)])).
Proof.
  refine (proj1 (proj2 (proj2 (summarizer_invoked_iff_summary_unusable
                                 (Sample.env true None None))))
            [("title", PStr "Attention Is All You Need");
             ("summary", PDict Sample.complete_summary)]
            Sample.complete_summary eq_refl _).
  discriminate.
Defined.

(** C8 as worded fails: a record whose summary field is the empty dict
    carries a dict-valued summary, and the Summarization Client is
    entered once for it all the same. *)
Lemma empty_summary_dict_is_summarized :
  carries_summary_object [("title", PStr "BERT"); ("summary", PDict [])]
    = true
  /\ count is_summarize
       (trace (enrich_record (Sample.env false None None)
                 [("title", PStr "BERT"); ("summary", PDict [])])) = 1%nat
  /\ ~ (count is_summarize
          (trace (enrich_record (Sample.env false None None)
                    [("title", PStr "BERT"); ("summary", PDict [])])) = 1%nat
        <-> carries_summary_object
              [("title", PStr "BERT"); ("summary", PDict [])] = false).
Proof.
  split; [reflexivity |]. split; [reflexivity |].
  intros [H _]. specialize (H eq_refl). discriminate H.
Qed.

(** *** The final fallback *)

Lemma enrich_and_respond_no_search E topic entries :
  count is_search (trace (enrich_and_respond E topic entries)) = 0%nat.
Proof.
  unfold enrich_and_respond. rewrite trace_bind, count_app.
  rewrite enrich_all_no_search.
  now destruct (outcome (enrich_all E entries)).
Qed.

Lemma normalize_empty E result topic top_n found :
  dispatch_shape E result = Ok (PList []) ->
  outcome (_arxiv_search_function E topic top_n) = Ok found ->
  normalize E result topic top_n =
    (emit (EvSearch topic top_n) ;;; enrich_and_respond E topic found).
Proof.
  intros Hd Hf. rewrite search_unfold in Hf. cbn in Hf. injection Hf as <-.
  unfold normalize, final_fallback. rewrite Hd, search_unfold. cbn.
  now destruct (enrich_and_respond E topic _).
Qed.

Lemma normalize_list E l topic top_n :
  l <> [] ->
  normalize E (PList l) topic top_n = enrich_and_respond E topic l.
Proof.
  intros Hl. unfold normalize, final_fallback. rewrite dispatch_list.
  destruct l as [| v l]; [contradiction |]. cbn.
  now destruct (enrich_and_respond E topic (v :: l)).
Qed.

Lemma run_crew_returns E topic top_n result :
  crew_kickoff E topic top_n = Some result ->
  run_research_crew E topic top_n =
    (emit (EvCrew topic top_n) ;;; normalize E result topic top_n).
Proof.
  intros H. unfold run_research_crew, orchestrate. rewrite H. cbn.
  now destruct (normalize E result topic top_n).
Qed.

Lemma run_crew_raises E topic top_n found :
  crew_kickoff E topic top_n = None ->
  outcome (_arxiv_search_function E topic top_n) = Ok found ->
  run_research_crew E topic top_n =
    (emit (EvCrew topic top_n) ;;; emit (EvSearch topic top_n) ;;;
     normalize E (PList found) topic top_n).
Proof.
  intros H Hf. rewrite search_unfold in Hf. cbn in Hf. injection Hf as <-.
  unfold run_research_crew, orchestrate. rewrite H, search_unfold.
  cbn -[normalize].
  now destruct (normalize E _ topic top_n).
Qed.

(** The literal text of an empty JSON array gives no record. *)
Lemma dispatch_empty_literal E :
  json_loads E "[]" = Loaded (PList []) ->
  dispatch_shape E (PStr "[]") = Ok (PList []).
Proof. intros H. rewrite dispatch_str. unfold loads_or_empty. now rewrite H. Qed.

(** C4. When the shape dispatch yields the empty record list, what
    follows is one call of the Paper Search Client with the original
    [(topic, top_n)] and then the loop over the list it returned: the
    normalisation stage is exactly that, its log holds one search call,
    and so does the log of the whole of [run_research_crew] when the
    result came from the crew. *)
Theorem empty_records_trigger_one_direct_search E result topic top_n :
  dispatch_shape E result = Ok (PList []) ->
  exists found,
    outcome (_arxiv_search_function E topic top_n) = Ok found
    /\ normalize E result topic top_n =
         (emit (EvSearch topic top_n) ;;; enrich_and_respond E topic found)
    /\ count is_search (trace (normalize E result topic top_n)) = 1%nat
    /\ (crew_kickoff E topic top_n = Some result ->
        count is_search (trace (run_research_crew E topic top_n)) = 1%nat
        /\ outcome (run_research_crew E topic top_n) =
             outcome (enrich_and_respond E topic found)).
Proof.
  intros Hd.
  destruct (search_total E topic top_n)
    as (found & Hfound).
  assert (Hn := normalize_empty E result topic top_n found Hd Hfound).
  assert (Hc : count is_search (trace (normalize E result topic top_n))
               = 1%nat).
  { rewrite Hn, trace_bind, count_app. cbn [outcome emit snd].
    now rewrite enrich_and_respond_no_search. }
  exists found. repeat split; try assumption.
  - rewrite (run_crew_returns E topic top_n result H).
    rewrite trace_bind, count_app. cbn [outcome emit snd]. now rewrite Hc.
  - rewrite (run_crew_returns E topic top_n result H), Hn.
    now rewrite !outcome_bind.
Qed.

(** The crew answers with the text of an empty JSON array. *)
Lemma empty_array_text_triggers_search :
  exists found,
    outcome (_arxiv_search_function
               (Sample.env false (Some (PStr "[]")) None) "llm agents" 3)
      = Ok found
    /\ normalize (Sample.env false (Some (PStr "[]")) None)
         (PStr "[]") "llm agents" 3 =
         (emit (EvSearch "llm agents" 3) ;;;
          enrich_and_respond (Sample.env false (Some (PStr "[]")) None)
            "llm agents" found)
    /\ count is_search
         (trace (normalize (Sample.env false (Some (PStr "[]")) None)
                   (PStr "[]") "llm agents" 3)) = 1%nat
    /\ (crew_kickoff (Sample.env false (Some (PStr "[]")) None)
          "llm agents" 3 = Some (PStr "[]") ->
        count is_search
          (trace (run_research_crew
                    (Sample.env false (Some (PStr "[]")) None)
                    "llm agents" 3)) = 1%nat
        /\ outcome (run_research_crew
                      (Sample.env false (Some (PStr "[]")) None)
                      "llm agents" 3) =
             outcome (enrich_and_respond
                        (Sample.env false (Some (PStr "[]")) None)
                        "llm agents" found)).
Proof.
  apply (empty_records_trigger_one_direct_search
           (Sample.env false (Some (PStr "[]")) None) (PStr "[]")
           "llm agents" 3).
  apply dispatch_empty_literal. reflexivity.
Defined.

(** *** Zero papers and the search that would have succeeded *)

Lemma records_of_all_records entries :
  Forall is_paper_record entries ->
  List.length (records_of entries) = List.length entries
  /\ forall p, In p (records_of entries) ->
       In (PDict p) entries /\ keys p = paper_fields.
Proof.
  induction 1 as [| v rest (p & -> & Hk) _ [IHlen IHin]]; cbn [records_of].
  - split; [reflexivity | intros p []].
  - split; [cbn; now rewrite IHlen |].
    intros p' [<- | Hin].
    + split; [now left | exact Hk].
    + destruct (IHin p' Hin) as [Hin' Hk']. split; [now right | exact Hk'].
Qed.

Lemma paper_record_summary_for E p :
  keys p = paper_fields ->
  summary_for E p (base_of p) = _summarize_with_gemini E (base_of p).
Proof.
  intros Hk. unfold summary_for, get, get_default.
  rewrite lookup_not_in; [reflexivity |].
  rewrite Hk. cbn. intuition discriminate.
Qed.

(** C2 (amended). If the crew raises, or the shape dispatch of its
    result yields the empty record list, and the Paper Search Client
    called with [(topic, top_n)] returns a non-empty list, and the
    Summarization Client returns a JSON object for each record of that
    list, then [run_research_crew] returns one paper per record found,
    hence a non-empty list. *)
Theorem fallback_search_gives_papers E topic top_n found :
  outcome (_arxiv_search_function E topic top_n) = Ok found ->
  found <> [] ->
  (crew_kickoff E topic top_n = None
   \/ exists result, crew_kickoff E topic top_n = Some result
                     /\ dispatch_shape E result = Ok (PList [])) ->
  (forall p, In (PDict p) found ->
     exists d, outcome (_summarize_with_gemini E (base_of p))
               = Ok (PDict d)) ->
  exists r,
    outcome (run_research_crew E topic top_n) = Ok r
    /\ List.length (resp_papers r) = List.length found
    /\ resp_papers r <> [].
Proof.
  intros Hfound Hne Hcrew Hsum.
  pose proof (search_returns_records E topic top_n found Hfound) as Hrec.
  destruct (records_of_all_records found Hrec) as [Hlen Hin].
  destruct (enrich_all_succeeds E found) as (out & Hout & Hout_len).
  { intros p Hp. destruct (Hin p Hp) as [Hp' Hk].
    rewrite (paper_record_summary_for E p Hk). now apply Hsum. }
  assert (Hresp : outcome (enrich_and_respond E topic found) =
                  Ok (Response topic (model_name E) out)).
  { unfold enrich_and_respond. now rewrite outcome_bind, Hout. }
  exists (Response topic (model_name E) out).
  split; [| split].
  - destruct Hcrew as [Hraise | (result & Hres & Hd)].
    + rewrite (run_crew_raises E topic top_n found Hraise Hfound).
      rewrite !outcome_bind. cbn [outcome emit snd].
      now rewrite (normalize_list E found topic top_n Hne).
    + rewrite (run_crew_returns E topic top_n result Hres).
      rewrite (normalize_empty E result topic top_n found Hd Hfound).
      now rewrite !outcome_bind.
  - cbn. now rewrite Hout_len, Hlen.
  - cbn. intros Ho. subst out. rewrite Hlen in Hout_len.
    destruct found; [contradiction | discriminate].
Qed.

(** The crew raises and no generative client is configured. *)
Lemma fallback_search_gives_two_papers :
  exists r,
    outcome (run_research_crew (Sample.env false None None)
               "transformer attention" 2) = Ok r
    /\ List.length (resp_papers r) = 2%nat
    /\ resp_papers r <> [].
Proof.
  refine (fallback_search_gives_papers (Sample.env false None None)
            "transformer attention" 2
            (map paper_of_result [Sample.attention; Sample.bert])
            eq_refl _ (or_introl eq_refl) _).
  - discriminate.
  - intros p _. exists [("problem", PStr ""); ("methodology", PStr "");
                        ("findings", PStr ""); ("limitations", PStr "")].
    reflexivity.
Defined.

(** C2 as worded fails: the crew returns a list holding one entry that
    is not a record; the list is not empty, so no fallback search is
    made, the entry is skipped, and zero papers are returned although the
    search for the same topic finds two. *)
Lemma unusable_entries_give_zero_papers :
  outcome (_arxiv_search_function
             (Sample.env false (Some (PList [PInt 1])) None) "bert" 2)
    = Ok (map paper_of_result [Sample.attention; Sample.bert])
  /\ run_research_crew (Sample.env false (Some (PList [PInt 1])) None)
       "bert" 2
     = ([EvCrew "bert" 2], Ok (Response "bert" "gemini-2.5-flash" []))
  /\ ~ never_empty_when_search_succeeds
         (Sample.env false (Some (PList [PInt 1])) None) "bert" 2.
Proof.
  split; [reflexivity |]. split; [reflexivity |].
  intros H. destruct (H _ eq_refl) as (r & Hr & Hne); [discriminate |].
  injection Hr as <-. now apply Hne.
Qed.

(** *** Further runs of the pipeline *)

(** When the crew itself raises and the search finds nothing, the final
    fallback repeats the search the adapter has just made: the run logs
    two search calls and returns no paper. *)
Lemma crew_raises_search_empty E topic top_n :
  crew_kickoff E topic top_n = None ->
  outcome (_arxiv_search_function E topic top_n) = Ok [] ->
  run_research_crew E topic top_n =
    ([EvCrew topic top_n; EvSearch topic top_n; EvSearch topic top_n],
     Ok (Response topic (model_name E) [])).
Proof.
  intros Hcrew Hfound.
  rewrite (run_crew_raises E topic top_n [] Hcrew Hfound).
  now rewrite (normalize_empty E (PList []) topic top_n [] eq_refl Hfound).
Qed.

(** Without a generative client the loop always completes. *)
Lemma enrich_all_without_client E entries :
  GENAI_CLIENT E = None ->
  exists out,
    outcome (enrich_all E entries) = Ok out
    /\ List.length out = List.length (records_of entries).
Proof.
  intros Hc. apply enrich_all_succeeds. intros p _.
  unfold summary_for.
  destruct (needs_summary (get p "summary")) eqn:Hn.
  - rewrite (summarize_unconfigured E (base_of p) Hc). now eexists.
  - unfold needs_summary in Hn. apply orb_false_elim in Hn as [_ Hd].
    destruct (get p "summary"); try discriminate. now eexists.
Qed.

(** A fenced reply is unwrapped before it is parsed. *)
Example clean_json_text_fenced :
  _clean_json_text ("  ```json" ++ newline ++ "[1]" ++ newline ++ "```  ")
  = "[1]".
Proof. reflexivity. Qed.

Example clean_json_text_plain : _clean_json_text " {}  " = "{}".
Proof. reflexivity. Qed.

(** The end-to-end scenario of the specification: the crew raises, the
    adapter's search returns two records without summaries, the
    Summarization Client is entered twice, and two papers come back,
    each with the four summary keys. *)
Example crew_raises_two_papers :
  exists t r,
    run_research_crew (Sample.env false None None)
      "transformer attention" 2 = (t, Ok r)
    /\ count is_search t = 1%nat
    /\ count is_summarize t = 2%nat
    /\ List.length (resp_papers r) = 2%nat
    /\ Forall (fun q => exists upstream, has_summary_record upstream q)
              (resp_papers r).
Proof.
  destruct (run_research_crew (Sample.env false None None)
              "transformer attention" 2) as [t [r | e]] eqn:Hrun;
    [| discriminate Hrun].
  exists t, r. split; [reflexivity |].
  pose proof (run_summary_records _ _ _ _ _ Hrun) as Hkeys.
  injection Hrun as <- <-. repeat split; try reflexivity. exact Hkeys.
Qed.

(** ** Further properties *)

Import More.

(** *** Texts and their ends *)

Lemma length_app s t :
  String.length (s ++ t) = (String.length s + String.length t)%nat.
Proof. induction s as [| c s IH]; cbn; [reflexivity | now rewrite IH]. Qed.

Lemma app_assoc_str s t u : (s ++ t) ++ u = s ++ (t ++ u).
Proof. induction s as [| c s IH]; cbn; [reflexivity | now rewrite IH]. Qed.

Lemma app_empty_r s : s ++ "" = s.
Proof. induction s as [| c s IH]; cbn; [reflexivity | now rewrite IH]. Qed.

Lemma lstrip_app_space ws s :
  all_space ws = true -> lstrip (ws ++ s) = lstrip s.
Proof.
  induction ws as [| c ws IH]; cbn; [reflexivity |].
  intros H. apply andb_prop in H as [Hc Hws]. now rewrite Hc, IH.
Qed.

Lemma rstrip_all_space ws : all_space ws = true -> rstrip ws = "".
Proof.
  induction ws as [| c ws IH]; cbn; [reflexivity |].
  intros H. apply andb_prop in H as [Hc Hws]. now rewrite IH, Hc.
Qed.

Lemma rstrip_app_space s ws :
  all_space ws = true -> rstrip (s ++ ws) = rstrip s.
Proof.
  intros H. induction s as [| c s IH]; cbn.
  - now apply rstrip_all_space.
  - now rewrite IH.
Qed.

Lemma rstrip_app_kept s t :
  rstrip t = t -> t <> "" -> rstrip (s ++ t) = s ++ t.
Proof.
  intros Ht Hne. induction s as [| c s IH]; cbn; [exact Ht |].
  rewrite IH. destruct (s ++ t) eqn:Hst; [| reflexivity].
  destruct s; [cbn in Hst; contradiction | discriminate].
Qed.

Lemma length_lstrip s : (String.length (lstrip s) <= String.length s)%nat.
Proof.
  induction s as [| c s IH]; cbn; [lia |].
  destruct (isspace c); cbn; lia.
Qed.

Lemma length_rstrip s : (String.length (rstrip s) <= String.length s)%nat.
Proof.
  induction s as [| c s IH]; cbn; [lia |].
  destruct (rstrip s); [destruct (isspace c) |]; cbn in *; lia.
Qed.

Lemma length_strip s : (String.length (strip s) <= String.length s)%nat.
Proof.
  unfold strip. pose proof (length_rstrip (lstrip s)).
  pose proof (length_lstrip s). lia.
Qed.

Lemma rstrip_idempotent s : rstrip (rstrip s) = rstrip s.
Proof.
  induction s as [| c s IH]; cbn; [reflexivity |].
  destruct (rstrip s) as [| c' r] eqn:Hr.
  - destruct (isspace c) eqn:Hc; cbn; [reflexivity | now rewrite Hc].
  - change (rstrip (String c (String c' r))) with
      (match rstrip (String c' r) with
       | "" => if isspace c then "" else String c ""
       | r' => String c r'
       end).
    now rewrite IH.
Qed.

Lemma lstrip_cases s :
  lstrip s = "" \/ exists c r, lstrip s = String c r /\ isspace c = false.
Proof.
  destruct (all_space s) eqn:H.
  - left. now apply lstrip_all_space.
  - right. now apply lstrip_not_all_space.
Qed.

Lemma lstrip_strip s : lstrip (strip s) = strip s.
Proof.
  unfold strip. destruct (lstrip_cases s) as [-> | (c & r & -> & Hc)];
    [reflexivity |].
  cbn [rstrip]. destruct (rstrip r); rewrite ?Hc; cbn [lstrip];
    now rewrite Hc.
Qed.

Lemma strip_idempotent s : strip (strip s) = strip s.
Proof.
  unfold strip at 1. rewrite lstrip_strip. unfold strip.
  apply rstrip_idempotent.
Qed.

Lemma rstrip_strip s : rstrip (strip s) = strip s.
Proof. unfold strip. apply rstrip_idempotent. Qed.

(** Whitespace around a text that has none at its ends is all that
    [strip] removes. *)
Lemma strip_padded ws1 ws2 c r :
  all_space ws1 = true -> all_space ws2 = true ->
  isspace c = false -> rstrip (String c r) = String c r ->
  strip (ws1 ++ String c r ++ ws2) = String c r.
Proof.
  intros H1 H2 Hc Hr. unfold strip. rewrite (lstrip_app_space _ _ H1).
  cbn [append lstrip]. rewrite Hc.
  change (String c (r ++ ws2)) with (String c r ++ ws2).
  now rewrite (rstrip_app_space _ _ H2).
Qed.

Lemma prefix_app p s : String.prefix p (p ++ s) = true.
Proof.
  induction p as [| c p IH]; cbn; [now destruct s |].
  destruct (ascii_dec c c); [exact IH | contradiction].
Qed.

Lemma drop_app p s : drop (String.length p) (p ++ s) = s.
Proof. induction p as [| c p IH]; cbn; [now destruct s | exact IH]. Qed.

Lemma substring_app p s : String.substring 0 (String.length p) (p ++ s) = p.
Proof.
  induction p as [| c p IH]; cbn; [now destruct s | now rewrite IH].
Qed.

Lemma endswith_app s suffix : endswith (s ++ suffix) suffix = true.
Proof.
  unfold endswith. rewrite length_app.
  replace (String.length s + String.length suffix - String.length suffix)%nat
    with (String.length s) by lia.
  rewrite drop_app, String.eqb_refl.
  apply andb_true_intro. split; [apply Nat.leb_le; lia | reflexivity].
Qed.

(** The prefix and suffix steps on a fenced text. *)
Lemma strip_fence_suffix_app body :
  strip_fence_suffix (body ++ fence) = body.
Proof.
  unfold strip_fence_suffix. rewrite endswith_app, length_app.
  replace (String.length body + String.length fence - 3)%nat
    with (String.length body) by (cbn; lia).
  apply substring_app.
Qed.

Lemma strip_fenced ws1 ws2 inner :
  all_space ws1 = true -> all_space ws2 = true ->
  strip (ws1 ++ (fence ++ inner ++ fence) ++ ws2) = fence ++ inner ++ fence.
Proof.
  intros H1 H2.
  apply (strip_padded ws1 ws2 "`"%char ("``" ++ inner ++ fence) H1 H2 eq_refl).
  change (rstrip (fence ++ inner ++ fence) = fence ++ inner ++ fence).
  rewrite <- app_assoc_str. now apply rstrip_app_kept.
Qed.

Lemma prefix_decompose p s :
  String.prefix p s = true -> s = p ++ drop (String.length p) s.
Proof.
  revert s. induction p as [| c p IH]; intros s H; [now destruct s |].
  destruct s as [| c' s]; [discriminate |]. cbn in H.
  destruct (ascii_dec c c') as [<- |]; [| discriminate].
  cbn. now rewrite <- (IH s H).
Qed.

Lemma prefix_app_l p q s :
  String.prefix (p ++ q) s = true -> String.prefix p s = true.
Proof.
  revert s. induction p as [| c p IH]; intros s H; [now destruct s |].
  destruct s as [| c' s]; [discriminate |]. cbn in *.
  destruct (ascii_dec c c'); [now apply IH | discriminate].
Qed.

Lemma prefix_empty s : String.prefix "" s = true.
Proof. now destruct s. Qed.

(** Whether a text starts with [json] is not changed by a closing fence
    put after it. *)
Lemma prefix_json_fence inner :
  String.prefix "json" (inner ++ fence) = String.prefix "json" inner.
Proof.
  destruct inner as [| c1 [| c2 [| c3 [| c4 r]]]]; cbn -[ascii_dec];
    repeat match goal with
           | |- context [ascii_dec ?a ?b] =>
               destruct (ascii_dec a b) as [e |];
               [try discriminate e; try subst |];
               cbn -[ascii_dec]; try reflexivity
           end.
  now rewrite !prefix_empty.
Qed.

Lemma split_at n s : s = String.substring 0 n s ++ drop n s.
Proof.
  revert s. induction n as [| n IH]; intros [| c s]; cbn;
    try reflexivity.
  now rewrite <- IH.
Qed.

Lemma endswith_decompose s suffix :
  endswith s suffix = true -> exists p, s = p ++ suffix.
Proof.
  unfold endswith. intros H. apply andb_prop in H as [_ H].
  apply String.eqb_eq in H.
  exists (String.substring 0 (String.length s - String.length suffix) s).
  rewrite <- H at 2. apply split_at.
Qed.

Lemma endswith_length s suffix :
  endswith s suffix = true ->
  (String.length suffix <= String.length s)%nat.
Proof.
  unfold endswith. intros H. apply andb_prop in H as [H _].
  now apply Nat.leb_le.
Qed.

(** A text without whitespace at its end does not end in a newline. *)
Lemma endswith_newline_not_stripped s x :
  rstrip s = s -> endswith s (x ++ newline) = false.
Proof.
  intros Hs. destruct (endswith s (x ++ newline)) eqn:He; [| reflexivity].
  apply endswith_decompose in He as (p & Hp).
  rewrite <- app_assoc_str in Hp.
  pose proof (length_rstrip (p ++ x)) as Hlen.
  assert (Hr : rstrip s = rstrip (p ++ x)).
  { rewrite Hp. now apply rstrip_app_space. }
  rewrite Hs in Hr. rewrite <- Hr, Hp, length_app in Hlen. cbn in Hlen. lia.
Qed.

Lemma length_drop n s : (String.length (drop n s) <= String.length s)%nat.
Proof.
  revert s. induction n as [| n IH]; intros [| c s]; cbn; try lia.
  specialize (IH s). lia.
Qed.

Lemma length_substring n s :
  (String.length (String.substring 0 n s) <= n)%nat.
Proof.
  revert s. induction n as [| n IH]; intros [| c s]; cbn; try lia.
  specialize (IH s). lia.
Qed.

Lemma length_strip_fence_prefix s :
  (String.length (strip_fence_prefix s) <= String.length s)%nat.
Proof.
  unfold strip_fence_prefix.
  destruct (String.prefix fence_json s); [apply length_drop |].
  destruct (String.prefix fence s); [apply length_drop | lia].
Qed.

Lemma length_strip_fence_suffix s :
  (String.length (strip_fence_suffix s) <= String.length s)%nat.
Proof.
  unfold strip_fence_suffix.
  destruct (endswith s fence) eqn:H1.
  - pose proof (length_substring (String.length s - 3) s). lia.
  - destruct (endswith s (fence ++ newline)) eqn:H2; [| lia].
    apply endswith_length in H2. cbn in H2. rewrite length_app. cbn.
    pose proof (length_substring (String.length s - 4) s). lia.
Qed.

(** *** [_clean_json_text] *)

(** X1. A reply wrapped in a pair of code fences, with whitespace around
    them or not, is cleaned to the stripped text between the fences; the
    letters [json] right after the opening fence are taken for the
    language tag and removed with it. *)
Theorem clean_json_text_unwraps_fence ws1 ws2 inner :
  all_space ws1 = true -> all_space ws2 = true ->
  _clean_json_text (ws1 ++ (fence ++ inner ++ fence) ++ ws2) =
    strip (if String.prefix "json" inner then drop 4 inner else inner).
Proof.
  intros H1 H2. unfold _clean_json_text.
  rewrite (strip_fenced ws1 ws2 inner H1 H2).
  assert (Hp : strip_fence_prefix (fence ++ inner ++ fence) =
               (if String.prefix "json" inner then drop 4 inner else inner)
               ++ fence).
  { unfold strip_fence_prefix.
    change (String.prefix fence_json (fence ++ inner ++ fence))
      with (String.prefix "json" (inner ++ fence)).
    rewrite prefix_json_fence.
    destruct (String.prefix "json" inner) eqn:Hj.
    - rewrite (prefix_decompose "json" inner Hj) at 1. reflexivity.
    - rewrite prefix_app. apply (drop_app fence). }
  now rewrite Hp, strip_fence_suffix_app.
Qed.

Lemma clean_json_text_unwraps_tagged_reply :
  _clean_json_text (newline ++ (fence ++ ("json" ++ newline ++ "[1]" ++ newline)
                                 ++ fence) ++ "  ") = "[1]".
Proof.
  apply (clean_json_text_unwraps_fence newline "  "
           ("json" ++ newline ++ "[1]" ++ newline)); reflexivity.
Defined.

(** X2. A reply that, once stripped, neither starts nor ends with a code
    fence is only stripped. *)
Theorem clean_json_text_without_fence text :
  String.prefix fence (strip text) = false ->
  endswith (strip text) fence = false ->
  _clean_json_text text = strip text.
Proof.
  intros Hp Hs. unfold _clean_json_text, strip_fence_prefix.
  destruct (String.prefix fence_json (strip text)) eqn:Hj.
  { apply (prefix_app_l fence "json") in Hj. congruence. }
  rewrite Hp. unfold strip_fence_suffix. rewrite Hs.
  rewrite (endswith_newline_not_stripped (strip text) fence
             (rstrip_strip text)).
  apply strip_idempotent.
Qed.

Lemma clean_json_text_without_fence_object :
  _clean_json_text ("  " ++ Sample2.object_text ++ newline)
  = Sample2.object_text.
Proof.
  apply (clean_json_text_without_fence
           ("  " ++ Sample2.object_text ++ newline)); reflexivity.
Defined.

(** X3. Whatever the reply, the cleaned text has no whitespace at its
    ends and is not longer than the reply. *)
Theorem clean_json_text_stripped_and_shorter text :
  stripped (_clean_json_text text)
  /\ (String.length (_clean_json_text text) <= String.length text)%nat.
Proof.
  split.
  - apply strip_idempotent.
  - unfold _clean_json_text.
    pose proof (length_strip
                  (strip_fence_suffix (strip_fence_prefix (strip text)))).
    pose proof (length_strip_fence_suffix (strip_fence_prefix (strip text))).
    pose proof (length_strip_fence_prefix (strip text)).
    pose proof (length_strip text). lia.
Qed.

(** *** The Summarization Client, call by call *)

Lemma Forall_trace_bind {A B} (P : event -> Prop) (m : M A) (f : A -> M B) :
  Forall P (trace m) ->
  (forall a, outcome m = Ok a -> Forall P (trace (f a))) ->
  Forall P (trace (bind m f)).
Proof.
  intros Hm Hf. rewrite trace_bind. apply Forall_app. split; [exact Hm |].
  destruct (outcome m) as [a | e]; [now apply Hf | constructor].
Qed.

(** With a client and authors that join, the Summarization Client logs
    its entry and one provider call, and ends as the provider and the
    parse decide. *)
Lemma summarize_with_client E client paper authors :
  GENAI_CLIENT E = Some client ->
  join ", " (get_default paper "authors" (PList [])) = Some authors ->
  _summarize_with_gemini E paper =
    ([EvSummarize paper; EvGenerate (GEMINI_MODEL E) (prompt_of paper authors)],
     match client (GEMINI_MODEL E) (prompt_of paper authors) with
     | None => Raise ProviderError
     | Some resp =>
         Ok match json_loads E (_clean_json_text (reply_text resp)) with
            | Loaded v => v
            | JSONDecodeError | LoadsRaises _ => empty_summary
            end
     end).
Proof.
  intros Hc Hj. unfold _summarize_with_gemini, prompt_of, reply_text.
  rewrite Hc, Hj. cbn.
  destruct (client (GEMINI_MODEL E) _) as [resp |]; cbn; [| reflexivity].
  match goal with
  | |- context [json_loads E ?x] => now destruct (json_loads E x)
  end.
Qed.

Lemma base_of_authors p :
  get_default (base_of p) "authors" (PList []) =
  py_or (get p "authors") (PList []).
Proof. reflexivity. Qed.

Lemma summary_for_needed E p base :
  needs_summary (get p "summary") = true ->
  summary_for E p base = _summarize_with_gemini E base.
Proof. intros H. unfold summary_for. now rewrite H. Qed.

Lemma enrich_record_Raise E p t e :
  summary_for E p (base_of p) = (t, Raise e) ->
  enrich_record E p = (t, Raise e).
Proof. intros H. rewrite enrich_record_unfold. now rewrite H. Qed.

Lemma enrich_record_not_dict E p t v :
  summary_for E p (base_of p) = (t, Ok v) ->
  isinstance_dict v = false ->
  enrich_record E p = (t, Raise AttributeError).
Proof.
  intros H Hv. rewrite enrich_record_unfold, H.
  destruct v; try discriminate; cbn; now rewrite app_nil_r.
Qed.

Lemma enrich_all_head_Raise E p rest t e :
  enrich_record E p = (t, Raise e) ->
  enrich_all E (PDict p :: rest) = (t, Raise e).
Proof. intros H. rewrite enrich_all_cons_record. now rewrite H. Qed.

(** X4. A reply that carries no text, or the empty text, is read as
    the text of an empty JSON object: where that text parses to the empty
    dict, the record is emitted with the empty string under each of the
    four summary keys. *)
Theorem textless_reply_gives_empty_summary E client p authors resp :
  GENAI_CLIENT E = Some client ->
  needs_summary (get p "summary") = true ->
  join ", " (py_or (get p "authors") (PList [])) = Some authors ->
  client (GEMINI_MODEL E) (prompt_of (base_of p) authors) = Some resp ->
  resp = None \/ resp = Some "" ->
  json_loads E "{}" = Loaded (PDict []) ->
  outcome (enrich_record E p) =
    Ok (PDict (base_of p ++ [("summary", empty_summary)])).
Proof.
  intros Hc Hn Hj Hr Hresp Hl.
  assert (Hs : summary_for E p (base_of p) =
               ([EvSummarize (base_of p);
                 EvGenerate (GEMINI_MODEL E) (prompt_of (base_of p) authors)],
                Ok (PDict []))).
  { rewrite (summary_for_needed E p (base_of p) Hn).
    rewrite (summarize_with_client E client (base_of p) authors Hc Hj), Hr.
    destruct Hresp as [-> | ->]; cbn [reply_text String.eqb];
      change (_clean_json_text "{}") with "{}"; now rewrite Hl. }
  now rewrite (enrich_record_Ok E p _ _ Hs).
Qed.

Lemma textless_reply_bert :
  outcome (enrich_record
             (Sample2.env (Some (Sample2.replying (Some None))) None
                          (Yields []) None)
             [("title", PStr "BERT")]) =
    Ok (PDict [("title", PStr "BERT"); ("authors", PList []);
               ("abstract", PStr ""); ("link", PStr "");
               ("published", PNone); ("summary", empty_summary)]).
Proof.
  apply (textless_reply_gives_empty_summary
           (Sample2.env (Some (Sample2.replying (Some None))) None
                        (Yields []) None)
           (Sample2.replying (Some None)) [("title", PStr "BERT")] "" None);
    try reflexivity.
  now left.
Defined.

(** X5. A reply that parses to a JSON value other than an object is
    returned as it is by the Summarization Client, and reading the
    summary keys from it raises [AttributeError]: the loop stops at that
    record and emits nothing. *)
Theorem non_object_reply_fails_loop E client p rest authors resp v :
  GENAI_CLIENT E = Some client ->
  needs_summary (get p "summary") = true ->
  join ", " (py_or (get p "authors") (PList [])) = Some authors ->
  client (GEMINI_MODEL E) (prompt_of (base_of p) authors) = Some resp ->
  json_loads E (_clean_json_text (reply_text resp)) = Loaded v ->
  isinstance_dict v = false ->
  outcome (_summarize_with_gemini E (base_of p)) = Ok v
  /\ enrich_all E (PDict p :: rest) =
       ([EvSummarize (base_of p);
         EvGenerate (GEMINI_MODEL E) (prompt_of (base_of p) authors)],
        Raise AttributeError).
Proof.
  intros Hc Hn Hj Hr Hl Hv.
  pose proof (summarize_with_client E client (base_of p) authors Hc Hj) as Hs.
  rewrite Hr, Hl in Hs. split; [now rewrite Hs |].
  apply enrich_all_head_Raise. apply (enrich_record_not_dict E p _ v); [| exact Hv].
  now rewrite (summary_for_needed E p (base_of p) Hn).
Qed.

Lemma array_reply_fails_loop :
  enrich_all
    (Sample2.env (Some (Sample2.replying (Some (Some "[1]")))) None
                 (Yields []) None)
    [PDict [("title", PStr "BERT")]; PDict [("title", PStr "GPT")]] =
    ([EvSummarize (base_of [("title", PStr "BERT")]);
      EvGenerate "gemini-2.0-pro"
        (prompt_of (base_of [("title", PStr "BERT")]) "")],
     Raise AttributeError).
Proof.
  apply (proj2 (non_object_reply_fails_loop
           (Sample2.env (Some (Sample2.replying (Some (Some "[1]")))) None
                        (Yields []) None)
           (Sample2.replying (Some (Some "[1]")))
           [("title", PStr "BERT")] [PDict [("title", PStr "GPT")]]
           "" (Some "[1]") (PList [PInt 1])
           eq_refl eq_refl eq_refl eq_refl eq_refl eq_refl)).
Defined.

(** X6. With a client configured, a record in need of a summary whose
    authors cannot be joined (a number, or a list holding something that
    is not a string) stops the loop with [TypeError] before the provider
    is called. *)
Theorem unjoinable_authors_raise_before_provider E client p rest :
  GENAI_CLIENT E = Some client ->
  needs_summary (get p "summary") = true ->
  join ", " (py_or (get p "authors") (PList [])) = None ->
  enrich_all E (PDict p :: rest) =
    ([EvSummarize (base_of p)], Raise TypeError).
Proof.
  intros Hc Hn Hj. apply enrich_all_head_Raise, enrich_record_Raise.
  rewrite (summary_for_needed E p (base_of p) Hn).
  unfold _summarize_with_gemini. rewrite Hc, base_of_authors, Hj.
  reflexivity.
Qed.

Lemma numeric_author_raises :
  enrich_all
    (Sample2.env (Some (Sample2.replying (Some (Some "{}")))) None
                 (Yields []) None)
    [PDict [("title", PStr "BERT"); ("authors", PList [PInt 7])]] =
    ([EvSummarize (base_of [("title", PStr "BERT");
                            ("authors", PList [PInt 7])])],
     Raise TypeError).
Proof.
  apply (unjoinable_authors_raise_before_provider
           (Sample2.env (Some (Sample2.replying (Some (Some "{}")))) None
                        (Yields []) None)
           (Sample2.replying (Some (Some "{}")))
           [("title", PStr "BERT"); ("authors", PList [PInt 7])] []);
    reflexivity.
Defined.

Lemma summary_for_Ok_generate E p base t v :
  summary_for E p base = (t, Ok v) ->
  count is_generate t =
    match GENAI_CLIENT E with
    | Some _ => count is_summarize t
    | None => 0%nat
    end.
Proof.
  unfold summary_for, _summarize_with_gemini.
  destruct (needs_summary (get p "summary")).
  - destruct (GENAI_CLIENT E) as [client |]; cbn.
    + destruct (join ", " (get_default base "authors" (PList [])));
        cbn; [| discriminate].
      destruct (client (GEMINI_MODEL E) _) as [resp |]; cbn; [| discriminate].
      match goal with
      | |- context [json_loads E ?x] => destruct (json_loads E x)
      end; cbn; now intros [= <- _].
    + now intros [= <- _].
  - intros [= <- _]. now destruct (GENAI_CLIENT E).
Qed.

(** X7. Over a loop that completes, the generative provider is called
    once for each entry of the Summarization Client when a client is
    configured, and never when there is none. *)
Theorem provider_called_once_per_summary E entries t out :
  enrich_all E entries = (t, Ok out) ->
  count is_generate t =
    match GENAI_CLIENT E with
    | Some _ => count is_summarize t
    | None => 0%nat
    end.
Proof.
  revert t out.
  induction entries as [| p rest IH | v rest Hv IH] using entries_ind;
    intros t out H.
  - injection H as <- <-. now destruct (GENAI_CLIENT E).
  - apply enrich_all_cons_Ok_inv in H
      as (t1 & q & t2 & qs & Hq & Hqs & -> & ->).
    apply enrich_record_Ok_inv in Hq as (d & Hd & _).
    rewrite !count_app, (IH _ _ Hqs), (summary_for_Ok_generate _ _ _ _ _ Hd).
    now destruct (GENAI_CLIENT E).
  - rewrite (enrich_all_cons_skip E v rest Hv) in H. now apply (IH t out).
Qed.

Lemma provider_called_twice_for_two_records :
  count is_generate
    (trace (enrich_all
              (Sample2.env (Some (Sample2.replying (Some (Some "{}")))) None
                           (Yields []) None)
              [PDict [("title", PStr "BERT")]; PInt 3;
               PDict [("summary", PDict Sample.complete_summary)];
               PDict [("title", PStr "GPT")]])) = 2%nat.
Proof.
  exact (provider_called_once_per_summary
           (Sample2.env (Some (Sample2.replying (Some (Some "{}")))) None
                        (Yields []) None)
           [PDict [("title", PStr "BERT")]; PInt 3;
            PDict [("summary", PDict Sample.complete_summary)];
            PDict [("title", PStr "GPT")]] _ _ eq_refl).
Defined.

(** *** The model a response names *)

Lemma summarize_trace_models E paper :
  Forall (uses_model E) (trace (_summarize_with_gemini E paper)).
Proof.
  unfold _summarize_with_gemini.
  destruct (GENAI_CLIENT E) as [client |]; cbn; [| repeat constructor].
  destruct (join ", " (get_default paper "authors" (PList []))); cbn;
    [| repeat constructor].
  destruct (client (GEMINI_MODEL E) _) as [resp |]; cbn;
    [| repeat constructor].
  match goal with
  | |- context [json_loads E ?x] => destruct (json_loads E x)
  end; cbn; repeat constructor.
Qed.

Lemma enrich_all_trace_models E entries :
  Forall (uses_model E) (trace (enrich_all E entries)).
Proof.
  induction entries as [| p rest IH | v rest Hv IH] using entries_ind.
  - constructor.
  - rewrite enrich_all_cons_record. apply Forall_trace_bind.
    + rewrite enrich_record_trace. unfold summary_for.
      destruct (needs_summary (get p "summary"));
        [apply summarize_trace_models | constructor].
    + intros q _. apply Forall_trace_bind; [exact IH |].
      intros qs _. constructor.
  - now rewrite (enrich_all_cons_skip E v rest Hv).
Qed.

Lemma search_trace_models E query max_results :
  Forall (uses_model E) (trace (_arxiv_search_function E query max_results)).
Proof. rewrite search_unfold. repeat constructor. Qed.

Lemma normalize_trace_models E result topic top_n :
  Forall (uses_model E) (trace (normalize E result topic top_n)).
Proof.
  unfold normalize. apply Forall_trace_bind; [constructor |].
  intros shaped _. apply Forall_trace_bind.
  - unfold final_fallback. apply Forall_trace_bind.
    + destruct (len shaped); constructor.
    + intros _ _. destruct (negb (truthy shaped)); [| constructor].
      apply Forall_trace_bind; [apply search_trace_models |].
      intros found _. constructor.
  - intros papers _. apply Forall_trace_bind.
    + destruct (iter papers); constructor.
    + intros entries _. unfold enrich_and_respond.
      apply Forall_trace_bind; [apply enrich_all_trace_models |].
      intros out _. constructor.
Qed.

Lemma run_trace_models E topic top_n :
  Forall (uses_model E) (trace (run_research_crew E topic top_n)).
Proof.
  unfold run_research_crew. apply Forall_trace_bind.
  - unfold orchestrate. apply Forall_trace_bind; [repeat constructor |].
    intros _ _. destruct (crew_kickoff E topic top_n); [constructor |].
    apply Forall_trace_bind; [apply search_trace_models |].
    intros found _. constructor.
  - intros result _. apply normalize_trace_models.
Qed.

(** The topic and the model of a returned response. *)
Lemma run_response_header E topic top_n t r :
  run_research_crew E topic top_n = (t, Ok r) ->
  resp_topic r = topic /\ resp_model r = model_name E.
Proof.
  unfold run_research_crew. intros H.
  apply bind_inv_Ok in H as (t1 & result & t2 & _ & H & _).
  unfold normalize in H.
  apply bind_inv_Ok in H as (t0 & shaped & t0' & _ & H & _).
  apply bind_inv_Ok in H as (t3 & papers & t4 & _ & H & _).
  apply bind_inv_Ok in H as (t5 & entries & t6 & _ & H & _).
  unfold enrich_and_respond in H.
  apply bind_inv_Ok in H as (t7 & out & t8 & _ & H & _).
  now injection H as _ <-.
Qed.

(** X8. When [GEMINI_API_KEY] is set, the model a returned response
    names is [GEMINI_MODEL]: the model of every provider call logged in
    the run, and, behind the [gemini/] prefix, the model of the LLM the
    agents are given. *)
Theorem reported_model_is_model_used E topic top_n t r key :
  GEMINI_API_KEY E = Some key -> key <> "" ->
  run_research_crew E topic top_n = (t, Ok r) ->
  (forall m contents, In (EvGenerate m contents) t -> m = resp_model r)
  /\ exists llm, get_gemini_llm E = Some llm
                 /\ llm_model llm = "gemini/" ++ resp_model r.
Proof.
  intros Hk Hne Hrun.
  destruct (run_response_header E topic top_n t r Hrun) as [_ Hm].
  assert (Hmodel : resp_model r = GEMINI_MODEL E).
  { rewrite Hm. unfold model_name. rewrite Hk.
    now destruct (String.eqb_spec key ""). }
  split.
  - intros m contents Hin.
    pose proof (run_trace_models E topic top_n) as Hall.
    rewrite Hrun in Hall. cbn [trace fst] in Hall.
    rewrite Forall_forall in Hall. specialize (Hall _ Hin).
    cbn in Hall. now rewrite Hmodel.
  - unfold get_gemini_llm. rewrite Hk.
    destruct (String.eqb_spec key ""); [contradiction |].
    eexists. split; [reflexivity |]. cbn. now rewrite Hmodel.
Qed.

Lemma reported_model_with_key :
  (forall m contents,
      In (EvGenerate m contents)
         (trace (run_research_crew
                   (Sample2.env (Some (Sample2.replying (Some (Some "{}"))))
                      None (Yields [Sample.bert]) (Some "k-123"))
                   "bert" 1)) ->
      m = "gemini-2.0-pro")
  /\ exists llm,
       get_gemini_llm
         (Sample2.env (Some (Sample2.replying (Some (Some "{}"))))
            None (Yields [Sample.bert]) (Some "k-123")) = Some llm
       /\ llm_model llm = "gemini/" ++ "gemini-2.0-pro".
Proof.
  refine (reported_model_is_model_used
            (Sample2.env (Some (Sample2.replying (Some (Some "{}"))))
               None (Yields [Sample.bert]) (Some "k-123"))
            "bert" 1 _ _ "k-123" eq_refl _ eq_refl).
  discriminate.
Defined.

(** Without the key, the response names the default model whatever model
    the provider calls use. *)
Example reported_model_without_key :
  exists t r,
    run_research_crew
      (Sample2.env (Some (Sample2.replying (Some (Some "{}"))))
         None (Yields [Sample.bert]) None) "bert" 1 = (t, Ok r)
    /\ resp_model r = "gemini-2.5-flash"
    /\ exists contents, In (EvGenerate "gemini-2.0-pro" contents) t.
Proof.
  eexists. eexists. split; [reflexivity |]. split; [reflexivity |].
  eexists. cbn. right. right. right. left. reflexivity.
Qed.

(** *** Record lists of other shapes *)

Lemma enrich_all_no_records E entries :
  records_of entries = [] -> enrich_all E entries = ([], Ok []).
Proof.
  induction entries as [| p rest IH | v rest Hv IH] using entries_ind.
  - reflexivity.
  - discriminate.
  - rewrite (records_of_cons_skip v rest Hv),
            (enrich_all_cons_skip E v rest Hv). exact IH.
Qed.

Lemma records_of_map_str {A} (f : A -> string) (l : list A) :
  records_of (map (fun a => PStr (f a)) l) = [].
Proof. induction l as [| a l IH]; [reflexivity | exact IH]. Qed.

Lemma len_iter v n : len v = Some n -> exists entries, iter v = Some entries.
Proof. destruct v; try discriminate; intros _; cbn; eauto. Qed.

Lemma final_fallback_unsized E topic top_n papers :
  len papers = None ->
  final_fallback E topic top_n papers = ([], Raise TypeError).
Proof. intros H. unfold final_fallback. now rewrite H. Qed.

Lemma final_fallback_truthy E topic top_n papers n :
  len papers = Some n -> truthy papers = true ->
  final_fallback E topic top_n papers = ([], Ok papers).
Proof. intros H Ht. unfold final_fallback. now rewrite H, Ht. Qed.

Lemma final_fallback_falsy E topic top_n papers n :
  len papers = Some n -> truthy papers = false ->
  final_fallback E topic top_n papers =
    (found <- _arxiv_search_function E topic top_n ;; ret (PList found)).
Proof.
  intros H Ht. unfold final_fallback. now rewrite H, Ht, search_unfold.
Qed.

Lemma normalize_shaped E result topic top_n shaped :
  dispatch_shape E result = Ok shaped ->
  normalize E result topic top_n =
    (papers <- final_fallback E topic top_n shaped ;;
     entries <- orRaise TypeError (iter papers) ;;
     enrich_and_respond E topic entries).
Proof.
  intros H. unfold normalize. rewrite H. unfold lift, bind at 1.
  match goal with |- (let (_, _) := ?m in _) = _ => now destruct m end.
Qed.

Lemma normalize_dispatch_raises E result topic top_n e :
  dispatch_shape E result = Raise e ->
  normalize E result topic top_n = ([], Raise e).
Proof. intros H. unfold normalize. now rewrite H. Qed.

Lemma normalize_unsized E result topic top_n shaped :
  dispatch_shape E result = Ok shaped ->
  len shaped = None ->
  normalize E result topic top_n = ([], Raise TypeError).
Proof.
  intros Hd H. rewrite (normalize_shaped E result topic top_n shaped Hd).
  now rewrite (final_fallback_unsized E _ _ _ H).
Qed.

Lemma normalize_truthy E result topic top_n shaped n entries :
  dispatch_shape E result = Ok shaped ->
  len shaped = Some n ->
  truthy shaped = true ->
  iter shaped = Some entries ->
  normalize E result topic top_n = enrich_and_respond E topic entries.
Proof.
  intros Hd H Ht Hi. rewrite (normalize_shaped E result topic top_n shaped Hd).
  rewrite (final_fallback_truthy E _ _ _ _ H Ht). cbn. rewrite Hi. cbn.
  now destruct (enrich_and_respond E topic entries).
Qed.

Lemma normalize_falsy E result topic top_n shaped n found :
  dispatch_shape E result = Ok shaped ->
  len shaped = Some n ->
  truthy shaped = false ->
  outcome (_arxiv_search_function E topic top_n) = Ok found ->
  normalize E result topic top_n =
    (emit (EvSearch topic top_n) ;;; enrich_and_respond E topic found).
Proof.
  intros Hd H Ht Hf. rewrite search_unfold in Hf. cbn in Hf.
  injection Hf as <-.
  rewrite (normalize_shaped E result topic top_n shaped Hd).
  rewrite (final_fallback_falsy E _ _ _ _ H Ht), search_unfold.
  cbn. now destruct (enrich_and_respond E topic _).
Qed.

(** X9. When the crew's result dispatches to a value without a length
    (the text of a JSON number, boolean or null), printing [len(papers)]
    raises: [run_research_crew] ends with [TypeError] right after the
    crew, with no search and no summary, and the handler answers 500. *)
Theorem unsized_records_raise_type_error E topic top_n result shaped :
  crew_kickoff E topic top_n = Some result ->
  dispatch_shape E result = Ok shaped ->
  len shaped = None ->
  run_research_crew E topic top_n = ([EvCrew topic top_n], Raise TypeError)
  /\ status_of (snd (Main.respond (run_research_crew E topic top_n))) = 500.
Proof.
  intros Hcrew Hd Hlen.
  assert (Hrun : run_research_crew E topic top_n =
                 ([EvCrew topic top_n], Raise TypeError)).
  { rewrite (run_crew_returns E topic top_n result Hcrew).
    now rewrite (normalize_unsized E result topic top_n shaped Hd Hlen). }
  split; [exact Hrun | now rewrite Hrun].
Qed.

Lemma number_text_raises_type_error :
  run_research_crew
    (Sample2.env None (Some (PStr "42")) (Yields [Sample.bert]) None)
    "bert" 3 = ([EvCrew "bert" 3], Raise TypeError).
Proof.
  exact (proj1 (unsized_records_raise_type_error
                  (Sample2.env None (Some (PStr "42"))
                               (Yields [Sample.bert]) None)
                  "bert" 3 (PStr "42") (PInt 42) eq_refl eq_refl eq_refl)).
Defined.

(** X10. When the crew's result dispatches to a non-empty JSON object
    or a non-empty JSON string, the loop runs over its keys or its
    characters, none of which is a record: the response holds zero
    papers, and neither the search nor the Summarization Client is
    called. *)
Theorem object_or_text_records_give_no_papers E topic top_n result :
  crew_kickoff E topic top_n = Some result ->
  (exists kvs, dispatch_shape E result = Ok (PDict kvs) /\ kvs <> [])
  \/ (exists s, dispatch_shape E result = Ok (PStr s) /\ s <> "") ->
  run_research_crew E topic top_n =
    ([EvCrew topic top_n], Ok (Response topic (model_name E) [])).
Proof.
  intros Hcrew Hshape.
  rewrite (run_crew_returns E topic top_n result Hcrew).
  assert (Hn : normalize E result topic top_n =
               ([], Ok (Response topic (model_name E) []))).
  { destruct Hshape as [(kvs & Hd & Hne) | (s & Hd & Hne)].
    - rewrite (normalize_truthy E result topic top_n (PDict kvs)
                 (List.length kvs) (map (fun kv => PStr (fst kv)) kvs) Hd).
      + unfold enrich_and_respond.
        now rewrite (enrich_all_no_records E _ (records_of_map_str fst kvs)).
      + reflexivity.
      + now destruct kvs.
      + reflexivity.
    - rewrite (normalize_truthy E result topic top_n (PStr s)
                 (String.length s)
                 (map (fun c => PStr (String c "")) (list_ascii_of_string s))
                 Hd).
      + unfold enrich_and_respond.
        now rewrite (enrich_all_no_records E _
                       (records_of_map_str (fun c => String c "") _)).
      + reflexivity.
      + now destruct s.
      + reflexivity. }
  now rewrite Hn.
Qed.

Lemma object_text_gives_no_papers :
  run_research_crew
    (Sample2.env None (Some (PStr Sample2.object_text))
                 (Yields [Sample.bert]) None)
    "bert" 3 = ([EvCrew "bert" 3], Ok (Response "bert" "gemini-2.5-flash" [])).
Proof.
  apply (object_or_text_records_give_no_papers
           (Sample2.env None (Some (PStr Sample2.object_text))
                        (Yields [Sample.bert]) None)
           "bert" 3 (PStr Sample2.object_text) eq_refl).
  left. exists [("papers", PList [])]. split; [reflexivity | discriminate].
Defined.

(** *** How often the search is called *)

Lemma normalize_search_count E result topic top_n :
  count is_search (trace (normalize E result topic top_n)) =
    searches_after (dispatch_shape E result).
Proof.
  destruct (dispatch_shape E result) as [shaped | e] eqn:Hd;
    [| now rewrite (normalize_dispatch_raises E result topic top_n e Hd)].
  unfold searches_after, fallback_searches.
  destruct (len shaped) as [n |] eqn:Hlen.
  - destruct (truthy shaped) eqn:Ht.
    + destruct (len_iter _ _ Hlen) as (entries & Hi).
      rewrite (normalize_truthy E result topic top_n shaped n entries
                 Hd Hlen Ht Hi).
      apply enrich_and_respond_no_search.
    + destruct (search_total E topic top_n) as (found & Hf).
      rewrite (normalize_falsy E result topic top_n shaped n found
                 Hd Hlen Ht Hf).
      rewrite trace_bind, count_app. cbn [outcome emit snd].
      now rewrite enrich_and_respond_no_search.
  - now rewrite (normalize_unsized E result topic top_n shaped Hd Hlen).
Qed.

Lemma searches_after_le_1 shaped : (searches_after shaped <= 1)%nat.
Proof.
  unfold searches_after, fallback_searches.
  destruct shaped as [v | e]; [| lia].
  destruct (len v); [destruct (truthy v) |]; lia.
Qed.

(** X11. The direct searches of a run are counted by its inputs: when
    the crew returns, one if its result dispatches to an empty sized value
    and none otherwise (none, then, when the dispatch raises); when the
    crew raises, the adapter's one, and one more if that search found
    nothing.  A run never makes more than two. *)
Theorem direct_search_count E topic top_n :
  count is_search (trace (run_research_crew E topic top_n)) =
    match crew_kickoff E topic top_n with
    | Some result => searches_after (dispatch_shape E result)
    | None =>
        match outcome (_arxiv_search_function E topic top_n) with
        | Ok [] => 2%nat
        | _ => 1%nat
        end
    end
  /\ (count is_search (trace (run_research_crew E topic top_n)) <= 2)%nat.
Proof.
  assert (Hcount :
    count is_search (trace (run_research_crew E topic top_n)) =
    match crew_kickoff E topic top_n with
    | Some result => searches_after (dispatch_shape E result)
    | None =>
        match outcome (_arxiv_search_function E topic top_n) with
        | Ok [] => 2%nat
        | _ => 1%nat
        end
    end).
  { destruct (crew_kickoff E topic top_n) as [result |] eqn:Hcrew.
    - rewrite (run_crew_returns E topic top_n result Hcrew).
      rewrite trace_bind, count_app. cbn [outcome emit snd].
      now rewrite normalize_search_count.
    - destruct (search_total E topic top_n) as (found & Hf).
      rewrite (run_crew_raises E topic top_n found Hcrew Hf), Hf.
      rewrite trace_bind, count_app. cbn [outcome emit snd].
      rewrite trace_bind, count_app. cbn [outcome emit snd].
      rewrite normalize_search_count, dispatch_list.
      now destruct found. }
  split; [exact Hcount |]. rewrite Hcount.
  destruct (crew_kickoff E topic top_n) as [result |].
  - pose proof (searches_after_le_1 (dispatch_shape E result)). lia.
  - destruct (outcome (_arxiv_search_function E topic top_n)) as [[| ? ?] | ?];
      lia.
Qed.

(** *** Search records through the loop *)

Lemma paper_of_result_fields r : paper_of_result r = PDict (fields_of_result r).
Proof. reflexivity. Qed.

Lemma py_or_str s : py_or (PStr s) (PStr "") = PStr s.
Proof. now destruct s. Qed.

Lemma py_or_strs (l : list string) :
  py_or (PList (map PStr l)) (PList []) = PList (map PStr l).
Proof. now destruct l. Qed.

(** The defaults of lines 247-253 change nothing in a search record. *)
Lemma base_of_search_record r : base_of (fields_of_result r) = fields_of_result r.
Proof.
  destruct r as [title authors abstract link published].
  unfold base_of, fields_of_result, get, get_default. cbn.
  now rewrite !py_or_str, py_or_strs.
Qed.

Lemma search_record_needs_summary r :
  needs_summary (get (fields_of_result r) "summary") = true.
Proof. reflexivity. Qed.

(** X12. A record built from a search result goes through the loop
    with its five fields as they are, an empty title, an empty author
    list and a missing date included: the emitted paper is that record
    plus the summary the Summarization Client returned for it. *)
Theorem search_record_emitted_unchanged E r t d :
  _summarize_with_gemini E (fields_of_result r) = (t, Ok (PDict d)) ->
  enrich_record E (fields_of_result r) =
    (t, Ok (paper_with_summary (four_keys d) r)).
Proof.
  intros H. unfold paper_with_summary.
  rewrite <- (base_of_search_record r) at 2.
  apply enrich_record_Ok.
  now rewrite (summary_for_needed E _ _ (search_record_needs_summary r)),
              base_of_search_record.
Qed.

Lemma search_record_bert_unchanged :
  enrich_record (Sample2.env None None (Yields []) None)
    (fields_of_result Sample.bert) =
    ([EvSummarize (fields_of_result Sample.bert)],
     Ok (PDict [("title", PStr "BERT");
                ("authors", PList [PStr "Jacob Devlin"]);
                ("abstract", PStr "We introduce BERT.");
                ("link", PStr "http://arxiv.org/abs/1810.04805v2");
                ("published", PNone);
                ("summary", empty_summary)])).
Proof.
  exact (search_record_emitted_unchanged
           (Sample2.env None None (Yields []) None) Sample.bert
           [EvSummarize (fields_of_result Sample.bert)]
           (four_keys []) eq_refl).
Defined.

Lemma outcome_bind_Ok {A B} (m : M A) (f : A -> M B) t a :
  m = (t, Ok a) -> outcome (bind m f) = outcome (f a).
Proof. intros ->. unfold bind, outcome. now destruct (f a). Qed.

Lemma outcome_emit {A} ev (m : M A) : outcome (emit ev ;;; m) = outcome m.
Proof. unfold bind, emit, outcome. now destruct m. Qed.

Lemma enrich_search_records_without_client E rs :
  GENAI_CLIENT E = None ->
  outcome (enrich_all E (map paper_of_result rs)) =
    Ok (map (paper_with_summary (four_keys [])) rs).
Proof.
  intros Hc. induction rs as [| r rs IH]; [reflexivity |].
  cbn [map]. rewrite paper_of_result_fields, enrich_all_cons_record.
  assert (Hr : enrich_record E (fields_of_result r) =
               ([EvSummarize (fields_of_result r)],
                Ok (paper_with_summary (four_keys []) r))).
  { unfold paper_with_summary. rewrite <- (base_of_search_record r) at 3.
    apply (enrich_record_Ok E (fields_of_result r) _ (four_keys [])).
    rewrite (summary_for_needed E _ _ (search_record_needs_summary r)),
            base_of_search_record.
    now apply summarize_unconfigured. }
  rewrite (outcome_bind_Ok _ _ _ _ Hr). now rewrite outcome_bind, IH.
Qed.

(** X13. With no generative client and a crew that raises,
    [run_research_crew] always returns: one paper per result the search
    provider yields, in the provider's order, each the search record with
    the all-empty summary; none when the provider yields nothing. *)
Theorem degraded_run_returns_search_records E topic top_n rs :
  GENAI_CLIENT E = None ->
  crew_kickoff E topic top_n = None ->
  arxiv_search E topic top_n = Yields rs ->
  outcome (run_research_crew E topic top_n) =
    Ok (Response topic (model_name E)
          (map (paper_with_summary (four_keys [])) rs)).
Proof.
  intros Hc Hcrew Hs.
  assert (Hf : outcome (_arxiv_search_function E topic top_n) =
               Ok (map paper_of_result rs)).
  { now rewrite search_unfold, Hs. }
  rewrite (run_crew_raises E topic top_n _ Hcrew Hf).
  rewrite !outcome_emit.
  assert (Hn : outcome (normalize E (PList (map paper_of_result rs))
                          topic top_n) =
               outcome (enrich_and_respond E topic (map paper_of_result rs))).
  { destruct rs as [| r rs'].
    - cbn [map] in *.
      rewrite (normalize_empty E (PList []) topic top_n [] eq_refl Hf).
      now rewrite outcome_emit.
    - now rewrite normalize_list. }
  rewrite Hn. unfold enrich_and_respond.
  now rewrite outcome_bind, (enrich_search_records_without_client E rs Hc).
Qed.

Lemma degraded_run_two_records :
  outcome (run_research_crew
             (Sample2.env None None (Yields [Sample.attention; Sample.bert])
                          None)
             "transformers" 2) =
    Ok (Response "transformers" "gemini-2.5-flash"
          [paper_with_summary (four_keys []) Sample.attention;
           paper_with_summary (four_keys []) Sample.bert]).
Proof.
  exact (degraded_run_returns_search_records
           (Sample2.env None None (Yields [Sample.attention; Sample.bert])
                        None)
           "transformers" 2 [Sample.attention; Sample.bert]
           eq_refl eq_refl eq_refl).
Defined.

(** *** Normalising twice *)

Lemma py_or_idempotent v default :
  truthy default = false ->
  py_or (py_or v default) default = py_or v default.
Proof.
  intros Hd. unfold py_or. destruct (truthy v) eqn:Hv.
  - now rewrite Hv.
  - now rewrite Hd.
Qed.

Lemma base_of_emitted p summary :
  base_of (base_of p ++ [("summary", summary)])%list = base_of p.
Proof.
  unfold base_of at 1. unfold get, get_default. cbn.
  now rewrite !py_or_idempotent.
Qed.

Lemma four_keys_idempotent d : four_keys (four_keys d) = four_keys d.
Proof. reflexivity. Qed.

Lemma enrich_record_emitted E p d :
  enrich_record E (base_of p ++ [("summary", PDict (four_keys d))])%list =
    ([], Ok (PDict (base_of p ++ [("summary", PDict (four_keys d))]))).
Proof.
  rewrite (enrich_record_Ok E _ [] (four_keys d)).
  - now rewrite base_of_emitted, four_keys_idempotent.
  - apply summary_for_embedded; [reflexivity | discriminate].
Qed.

(** X14. Normalising is idempotent: the list a completed loop emits,
    given to the loop again, comes back as it is, and no collaborator is
    called. *)
Theorem normalising_twice_changes_nothing E entries t out :
  enrich_all E entries = (t, Ok out) ->
  enrich_all E out = ([], Ok out).
Proof.
  intros H. apply enrich_all_Ok_inv in H.
  induction H as [| p q ps qs (t1 & Hq) _ IH]; [reflexivity |].
  apply enrich_record_Ok_inv in Hq as (d & _ & ->).
  rewrite enrich_all_cons_record, (enrich_record_emitted E p d).
  cbn. now rewrite IH.
Qed.

Lemma normalising_twice_sparse_record :
  enrich_all (Sample2.env None None (Yields []) None)
    [PDict [("title", PStr ""); ("authors", PList []);
            ("abstract", PStr ""); ("link", PStr "x");
            ("published", PNone); ("summary", empty_summary)]] =
  ([], Ok [PDict [("title", PStr ""); ("authors", PList []);
                  ("abstract", PStr ""); ("link", PStr "x");
                  ("published", PNone); ("summary", empty_summary)]]).
Proof.
  exact (normalising_twice_changes_nothing
           (Sample2.env None None (Yields []) None)
           [PStr "noise"; PDict [("title", PNone); ("link", PStr "x")]]
           _ _ eq_refl).
Defined.

(** *** What can fail without a generative client *)

Lemma enrich_and_respond_without_client E topic entries :
  GENAI_CLIENT E = None ->
  exists r, outcome (enrich_and_respond E topic entries) = Ok r.
Proof.
  intros Hc. destruct (enrich_all_without_client E entries Hc) as (out & Ho & _).
  unfold enrich_and_respond. rewrite outcome_bind, Ho. cbn. eauto.
Qed.

Lemma normalize_sized_without_client E result topic top_n shaped n :
  GENAI_CLIENT E = None ->
  dispatch_shape E result = Ok shaped ->
  len shaped = Some n ->
  exists r, outcome (normalize E result topic top_n) = Ok r.
Proof.
  intros Hc Hd Hlen.
  destruct (truthy shaped) eqn:Ht.
  - destruct (len_iter _ _ Hlen) as (entries & Hi).
    rewrite (normalize_truthy E result topic top_n shaped n entries
               Hd Hlen Ht Hi).
    now apply enrich_and_respond_without_client.
  - destruct (search_total E topic top_n) as (found & Hf).
    rewrite (normalize_falsy E result topic top_n shaped n found
               Hd Hlen Ht Hf).
    rewrite outcome_emit. now apply enrich_and_respond_without_client.
Qed.

(** The dispatch raises only what [json.loads] raised on the text of the
    result, bare or under [raw]. *)
Lemma dispatch_Raise_inv E result e :
  dispatch_shape E result = Raise e ->
  exists s,
    (result = PStr s \/ getattr result "raw" = Some (PStr s))
    /\ json_loads E s = LoadsRaises e.
Proof.
  destruct result; try discriminate.
  - cbn. unfold loads_or_empty.
    destruct (json_loads E s) as [v | | e'] eqn:Hl; try discriminate.
    intros [= ->]. exists s. split; [now left | exact Hl].
  - unfold dispatch_shape, hasattr, raw_of. cbn.
    destruct (lookup "raw" attrs) as [[] |]; try discriminate.
    cbn. unfold loads_or_empty.
    destruct (json_loads E s) as [v | | e'] eqn:Hl; try discriminate.
    intros [= ->]. exists s. split; [now right | exact Hl].
Qed.

(** X15. With no generative client, [run_research_crew] raises in two
    ways only, both right after the crew returned and before anything
    else is called: with [TypeError], when the crew's result dispatches
    to a value without a length, and with what [json.loads] raised on
    the crew's text, when that is not [JSONDecodeError].  In particular
    it never raises when the crew itself raised. *)
Theorem without_client_only_unsized_result_raises E topic top_n e :
  GENAI_CLIENT E = None ->
  outcome (run_research_crew E topic top_n) = Raise e ->
  trace (run_research_crew E topic top_n) = [EvCrew topic top_n]
  /\ exists result,
       crew_kickoff E topic top_n = Some result
       /\ ((exists shaped,
              dispatch_shape E result = Ok shaped
              /\ len shaped = None /\ e = TypeError)
           \/ (exists s,
                 (result = PStr s \/ getattr result "raw" = Some (PStr s))
                 /\ json_loads E s = LoadsRaises e)).
Proof.
  intros Hc Hraise.
  destruct (crew_kickoff E topic top_n) as [result |] eqn:Hcrew.
  - rewrite (run_crew_returns E topic top_n result Hcrew) in *.
    rewrite outcome_emit in Hraise.
    destruct (dispatch_shape E result) as [shaped | e'] eqn:Hd.
    + destruct (len shaped) as [n |] eqn:Hlen.
      * destruct (normalize_sized_without_client E result topic top_n
                    shaped n Hc Hd Hlen) as (r & Hr).
        congruence.
      * rewrite (normalize_unsized E result topic top_n shaped Hd Hlen) in *.
        cbn in Hraise. injection Hraise as <-.
        split; [reflexivity |]. exists result. split; [reflexivity |].
        left. now exists shaped.
    + rewrite (normalize_dispatch_raises E result topic top_n e' Hd) in *.
      cbn in Hraise. injection Hraise as <-.
      split; [reflexivity |]. exists result. split; [reflexivity |].
      right. now apply dispatch_Raise_inv.
  - destruct (search_total E topic top_n) as (found & Hf).
    rewrite (run_crew_raises E topic top_n found Hcrew Hf) in Hraise.
    rewrite !outcome_emit in Hraise.
    destruct (normalize_sized_without_client E (PList found) topic top_n
                (PList found) (List.length found) Hc eq_refl eq_refl)
      as (r & Hr).
    congruence.
Qed.

Lemma without_client_deep_text_raises :
  trace (run_research_crew
           (Sample2.env None (Some (PStr Sample2.deep_text)) (Yields []) None)
           "bert" 5) = [EvCrew "bert" 5]
  /\ exists result,
       crew_kickoff
         (Sample2.env None (Some (PStr Sample2.deep_text)) (Yields []) None)
         "bert" 5 = Some result
       /\ ((exists shaped,
              dispatch_shape
                (Sample2.env None (Some (PStr Sample2.deep_text))
                             (Yields []) None) result = Ok shaped
              /\ len shaped = None /\ RecursionError = TypeError)
           \/ (exists s,
                 (result = PStr s \/ getattr result "raw" = Some (PStr s))
                 /\ json_loads
                      (Sample2.env None (Some (PStr Sample2.deep_text))
                                   (Yields []) None) s
                    = LoadsRaises RecursionError)).
Proof.
  apply (without_client_only_unsized_result_raises
           (Sample2.env None (Some (PStr Sample2.deep_text)) (Yields []) None)
           "bert" 5 RecursionError eq_refl).
  vm_compute. reflexivity.
Defined.

(** *** The handler's answers *)

Lemma status_of_respond m :
  status_of (snd (Main.respond m)) =
    match outcome m with Ok _ => 200 | Raise _ => 500 end.
Proof. now destruct m as [t [r | e]]. Qed.

(** X16. Whatever the validation of the response model accepts, the
    endpoint answers with status 400 exactly when the topic is blank,
    with status 200 exactly when the topic is not blank and the pipeline,
    run on the stripped topic and [req.top_n or 5], returns a body that
    validates, and with status 500 exactly when the topic is not blank
    and the pipeline raises or returns a body that does not validate. *)
Theorem handler_status (validates : response -> bool) E
    (req : Main.SummarizeRequest) :
  (endpoint_status validates (snd (Main.summarize E req)) = 400
   <-> all_space (Main.topic req) = true)
  /\ (endpoint_status validates (snd (Main.summarize E req)) = 200
      <-> all_space (Main.topic req) = false
          /\ exists body,
               outcome (run_research_crew E (strip (Main.topic req))
                          (Main.top_n_or_5 (Main.top_n req))) = Ok body
               /\ validates body = true)
  /\ (endpoint_status validates (snd (Main.summarize E req)) = 500
      <-> all_space (Main.topic req) = false
          /\ ((exists e,
                 outcome (run_research_crew E (strip (Main.topic req))
                            (Main.top_n_or_5 (Main.top_n req))) = Raise e)
              \/ (exists body,
                    outcome (run_research_crew E (strip (Main.topic req))
                               (Main.top_n_or_5 (Main.top_n req))) = Ok body
                    /\ validates body = false))).
Proof.
  unfold Main.summarize.
  destruct (all_space (Main.topic req)) eqn:Hs.
  - rewrite (strip_all_space _ Hs). cbn.
    split; [split; reflexivity |].
    split; (split; [discriminate | intros [H _]; discriminate]).
  - destruct (String.eqb_spec (strip (Main.topic req)) "") as [He | _];
      [now apply strip_not_all_space in Hs |].
    destruct (run_research_crew E (strip (Main.topic req))
                (Main.top_n_or_5 (Main.top_n req))) as [t [r | e]]; cbn.
    + destruct (validates r) eqn:Hv.
      * split; [split; discriminate |]. split.
        -- split; [intros _; split; [reflexivity | now exists r] |
                   reflexivity].
        -- split; [discriminate |].
           intros [_ [(e & He) | (body & [= <-] & Hb)]];
             [discriminate | congruence].
      * split; [split; discriminate |]. split.
        -- split; [discriminate |].
           intros [_ (body & [= <-] & Hb)]. congruence.
        -- split; [intros _; split; [reflexivity | right; now exists r] |
                   reflexivity].
    + split; [split; discriminate |]. split.
      * split; [discriminate | intros [_ (body & Hb & _)]; discriminate].
      * split; [intros _; split; [reflexivity | left; now exists e] |
                reflexivity].
Qed.

(** A crew record with a numeric title goes through the pipeline, which
    returns it, and fails the response model: the answer is 500 although
    the handler returned. *)
Example numeric_title_answers_500 :
  snd (Main.summarize
         (Sample2.env None
            (Some (PList [PDict [("title", PInt 5);
                                 ("summary", PDict [("problem", PStr "p")])]]))
            (Yields []) None)
         (Main.parse_body "bert" Main.Absent))
  = Main.Http200
      {| resp_topic := "bert";
         resp_model := "gemini-2.5-flash";
         resp_papers :=
           [PDict [("title", PInt 5); ("authors", PList []);
                   ("abstract", PStr ""); ("link", PStr "");
                   ("published", PNone);
                   ("summary", PDict [("problem", PStr "p");
                                      ("methodology", PStr "");
                                      ("findings", PStr "");
                                      ("limitations", PStr "")])]] |}
  /\ endpoint_status exact_types
       (snd (Main.summarize
               (Sample2.env None
                  (Some (PList [PDict [("title", PInt 5);
                                       ("summary",
                                        PDict [("problem", PStr "p")])]]))
                  (Yields []) None)
               (Main.parse_body "bert" Main.Absent))) = 500.
Proof. split; reflexivity. Qed.

(** X17. A 200 answer carries the request's topic stripped of the
    whitespace around it, which is never empty, and the model name
    [run_research_crew] computes. *)
Theorem answer_echoes_stripped_topic E (req : Main.SummarizeRequest) t r :
  Main.summarize E req = (t, Main.Http200 r) ->
  resp_topic r = strip (Main.topic req)
  /\ stripped (resp_topic r)
  /\ resp_topic r <> ""
  /\ resp_model r = model_name E.
Proof.
  unfold Main.summarize.
  destruct (String.eqb_spec (strip (Main.topic req)) "") as [He | Hne];
    [discriminate |].
  destruct (run_research_crew E (strip (Main.topic req))
              (Main.top_n_or_5 (Main.top_n req))) as [t' [r' | e]] eqn:Hrun;
    cbn; [| discriminate].
  intros [= <- <-].
  destruct (run_response_header E _ _ _ _ Hrun) as [Ht Hm].
  rewrite Ht. repeat split; [apply strip_idempotent | exact Hne | exact Hm].
Qed.

Lemma answer_echoes_padded_topic :
  resp_topic (Response "diffusion" "gemini-2.5-flash" []) =
    strip "  diffusion  "
  /\ stripped (resp_topic (Response "diffusion" "gemini-2.5-flash" []))
  /\ resp_topic (Response "diffusion" "gemini-2.5-flash" []) <> ""
  /\ resp_model (Response "diffusion" "gemini-2.5-flash" []) =
       model_name (Sample2.env None None (Yields []) None).
Proof.
  exact (answer_echoes_stripped_topic
           (Sample2.env None None (Yields []) None)
           (Main.parse_body "  diffusion  " Main.Absent) _ _ eq_refl).
Defined.

(** X18. Any [top_n] other than zero, a negative one included, reaches
    the pipeline as it was sent: the handler checks no range. *)
Theorem nonzero_top_n_passes_through E topic n :
  n <> 0 -> all_space topic = false ->
  Main.summarize E (Main.parse_body topic (Main.Given n)) =
    Main.respond (run_research_crew E (strip topic) n)
  /\ exists rest,
       fst (Main.summarize E (Main.parse_body topic (Main.Given n))) =
         EvCrew (strip topic) n :: rest.
Proof.
  intros Hn Hs.
  assert (Hrun : Main.summarize E (Main.parse_body topic (Main.Given n)) =
                 Main.respond (run_research_crew E (strip topic) n)).
  { unfold Main.summarize. cbn [Main.topic Main.top_n Main.parse_body].
    destruct (String.eqb_spec (strip topic) "") as [He | _].
    - now apply strip_not_all_space in Hs.
    - unfold Main.top_n_or_5. now destruct (Z.eqb_spec n 0). }
  split; [exact Hrun |]. rewrite Hrun.
  destruct (run_trace_head E (strip topic) n) as (rest & Hrest).
  exists rest. unfold Main.respond, trace in *.
  now destruct (run_research_crew E (strip topic) n) as [t [r | e]].
Qed.

Lemma negative_top_n_passes_through :
  exists rest,
    fst (Main.summarize (Sample2.env None None (Yields []) None)
           (Main.parse_body "bert" (Main.Given (-3)))) =
      EvCrew "bert" (-3) :: rest.
Proof.
  refine (proj2 (nonzero_top_n_passes_through
                   (Sample2.env None None (Yields []) None) "bert" (-3)
                   _ eq_refl)).
  discriminate.
Defined.

(** *** The search tool and the text it hands to the crew *)

Lemma run_crew_raises_outcome E topic top_n found :
  crew_kickoff E topic top_n = None ->
  outcome (_arxiv_search_function E topic top_n) = Ok found ->
  outcome (run_research_crew E topic top_n) =
    outcome (enrich_and_respond E topic found).
Proof.
  intros Hcrew Hf. rewrite (run_crew_raises E topic top_n found Hcrew Hf).
  rewrite !outcome_emit. destruct found as [| v found'].
  - rewrite (normalize_empty E (PList []) topic top_n [] eq_refl Hf).
    apply outcome_emit.
  - now rewrite normalize_list.
Qed.

Section ToolText.

Variable json_dumps : pyval -> string.

(** X19. The search tool logs one search and returns the JSON text of
    what the search found, never raising.  If the crew hands that text on
    unchanged and [json.loads] gives back the list it was made from, the
    run ends as the loop over the search result does, and the run itself
    searches only when that result is empty. *)
Theorem tool_text_normalises_like_search E topic top_n found :
  outcome (_arxiv_search_function E topic top_n) = Ok found ->
  crew_kickoff E topic top_n = Some (PStr (json_dumps (PList found))) ->
  json_loads E (json_dumps (PList found)) = Loaded (PList found) ->
  arxiv_search_tool json_dumps E topic top_n =
    ([EvSearch topic top_n], Ok (json_dumps (PList found)))
  /\ outcome (run_research_crew E topic top_n) =
       outcome (enrich_and_respond E topic found)
  /\ count is_search (trace (run_research_crew E topic top_n)) =
       match found with [] => 1%nat | _ => 0%nat end.
Proof.
  intros Hf Hcrew Hround.
  assert (Hd : dispatch_shape E (PStr (json_dumps (PList found))) =
               Ok (PList found)).
  { rewrite dispatch_str. unfold loads_or_empty. now rewrite Hround. }
  split; [| split].
  - unfold arxiv_search_tool. rewrite search_unfold in *. cbn in Hf.
    injection Hf as <-. reflexivity.
  - rewrite (run_crew_returns E topic top_n _ Hcrew), outcome_emit.
    destruct found as [| v found'].
    + rewrite (normalize_empty E _ topic top_n [] Hd Hf). apply outcome_emit.
    + now rewrite (normalize_truthy E _ topic top_n (PList (v :: found'))
                     (List.length (v :: found')) (v :: found')
                     Hd eq_refl eq_refl eq_refl).
  - rewrite (run_crew_returns E topic top_n _ Hcrew).
    rewrite trace_bind, count_app. cbn [outcome emit snd].
    rewrite normalize_search_count, Hd. now destruct found.
Qed.

End ToolText.

Lemma tool_text_of_empty_search :
  arxiv_search_tool Sample2.dumps
    (Sample2.env None (Some (PStr "[]")) (Yields []) None) "bert" 5 =
    ([EvSearch "bert" 5], Ok (Sample2.dumps (PList [])))
  /\ outcome (run_research_crew
                (Sample2.env None (Some (PStr "[]")) (Yields []) None)
                "bert" 5) =
       outcome (enrich_and_respond
                  (Sample2.env None (Some (PStr "[]")) (Yields []) None)
                  "bert" [])
  /\ count is_search
       (trace (run_research_crew
                 (Sample2.env None (Some (PStr "[]")) (Yields []) None)
                 "bert" 5)) = 1%nat.
Proof.
  exact (tool_text_normalises_like_search Sample2.dumps
           (Sample2.env None (Some (PStr "[]")) (Yields []) None)
           "bert" 5 [] eq_refl eq_refl eq_refl).
Defined.

(** *** The declared response model *)

Lemma typed_py_or check v default :
  check default = true -> truthy default = false ->
  check (py_or v default) = typed_or_falsy check v.
Proof.
  intros Hd Ht. unfold py_or, typed_or_falsy.
  destruct (truthy v) eqn:Hv; cbn.
  - now rewrite orb_false_r.
  - now rewrite orb_true_r.
Qed.

Lemma optional_str_get p :
  optional_str (Some (get p "published")) = optional_str (lookup "published" p).
Proof.
  unfold get, get_default. now destruct (lookup "published" p) as [[] |].
Qed.

Lemma lookup_emitted p summary :
  lookup "title" (base_of p ++ [("summary", summary)]) =
    Some (py_or (get p "title") (PStr ""))
  /\ lookup "authors" (base_of p ++ [("summary", summary)]) =
       Some (py_or (get p "authors") (PList []))
  /\ lookup "abstract" (base_of p ++ [("summary", summary)]) =
       Some (py_or (get p "abstract") (PStr ""))
  /\ lookup "link" (base_of p ++ [("summary", summary)]) =
       Some (py_or (get p "link") (PStr ""))
  /\ lookup "published" (base_of p ++ [("summary", summary)]) =
       Some (get p "published")
  /\ lookup "summary" (base_of p ++ [("summary", summary)]) = Some summary.
Proof. repeat split. Qed.

Lemma conforms_emitted p summary :
  conforms_PaperSummary
    (PDict (base_of p ++ [("summary", PDict summary)])) =
  well_typed_record p.
Proof.
  unfold conforms_PaperSummary, well_typed_record, field_is.
  destruct (lookup_emitted p (PDict summary))
    as (-> & -> & -> & -> & -> & ->).
  rewrite !typed_py_or by reflexivity.
  rewrite optional_str_get. apply andb_true_r.
Qed.

(** X20. An emitted paper has the field types [PaperSummary] declares
    exactly when, in the input record, title, abstract and link are each
    falsy or a [str], authors is falsy or a list of [str], and published
    is missing, null or a [str]: the defaults of lines 248-251 repair a
    missing, null or falsy value and pass any other through, and line 252
    gives published no default, so that a falsy value of another type
    there, such as 0, reaches the response. *)
Theorem emitted_paper_conforms_iff_well_typed E p t q :
  enrich_record E p = (t, Ok q) ->
  conforms_PaperSummary q = well_typed_record p.
Proof.
  intros H. apply enrich_record_Ok_inv in H as (d & _ & ->).
  apply conforms_emitted.
Qed.

Lemma numeric_title_does_not_conform :
  conforms_PaperSummary
    (PDict [("title", PInt 5); ("authors", PList []);
            ("abstract", PStr ""); ("link", PStr "");
            ("published", PNone); ("summary", empty_summary)]) =
  well_typed_record [("title", PInt 5)].
Proof.
  exact (emitted_paper_conforms_iff_well_typed
           (Sample2.env None None (Yields []) None)
           [("title", PInt 5)] _ _ eq_refl).
Defined.

(** A falsy date of another type is not repaired: the record with
    [published] 0 is emitted with it and does not conform. *)
Example numeric_published_does_not_conform :
  outcome (enrich_record (Sample2.env None None (Yields []) None)
             [("title", PStr "t"); ("published", PInt 0)])
  = Ok (PDict [("title", PStr "t"); ("authors", PList []);
               ("abstract", PStr ""); ("link", PStr "");
               ("published", PInt 0); ("summary", empty_summary)])
  /\ well_typed_record [("title", PStr "t"); ("published", PInt 0)] = false
  /\ conforms_PaperSummary
       (PDict [("title", PStr "t"); ("authors", PList []);
               ("abstract", PStr ""); ("link", PStr "");
               ("published", PInt 0); ("summary", empty_summary)]) = false.
Proof. repeat split. Qed.

Lemma forallb_map_str (l : list string) :
  forallb isinstance_str (map PStr l) = true.
Proof. induction l as [| s l IH]; [reflexivity | exact IH]. Qed.

Lemma search_record_well_typed r : well_typed_record (fields_of_result r) = true.
Proof.
  destruct r as [title authors abstract link published].
  unfold well_typed_record, typed_or_falsy, fields_of_result, get, get_default.
  cbn. rewrite forallb_map_str. now destruct published.
Qed.

Lemma emitted_from_well_typed E ps qs :
  Forall2 (fun p q => exists t', enrich_record E p = (t', Ok q)) ps qs ->
  Forall (fun p => well_typed_record p = true) ps ->
  forallb conforms_PaperSummary qs = true.
Proof.
  induction 1 as [| p q ps qs (t1 & Hq) _ IH]; intros Hwt; [reflexivity |].
  inversion Hwt as [| ? ? Hp Hps]; subst. cbn [forallb].
  apply enrich_record_Ok_inv in Hq as (d & _ & ->).
  now rewrite conforms_emitted, Hp, IH.
Qed.

(** X21. When the crew raises, every paper of a returned response has
    the field types [PaperSummary] declares, whatever the search provider
    yielded and whatever summaries the generative provider gave. *)
Theorem adapter_fallback_papers_conform E topic top_n t r :
  crew_kickoff E topic top_n = None ->
  run_research_crew E topic top_n = (t, Ok r) ->
  forallb conforms_PaperSummary (resp_papers r) = true.
Proof.
  intros Hcrew Hrun.
  destruct (search_total E topic top_n) as (found & Hf).
  pose proof (run_crew_raises_outcome E topic top_n found Hcrew Hf) as Ho.
  rewrite Hrun in Ho. cbn [outcome snd] in Ho. symmetry in Ho.
  unfold enrich_and_respond in Ho.
  destruct (enrich_all E found) as [t' [out | e]] eqn:Hall;
    cbn in Ho; [| discriminate].
  injection Ho as <-. cbn [resp_papers].
  pose proof (search_returns_records E topic top_n found Hf) as Hrec.
  destruct (records_of_all_records found Hrec) as [_ Hin].
  apply enrich_all_Ok_inv in Hall.
  assert (Hwt : Forall (fun p => well_typed_record p = true)
                       (records_of found)).
  { apply Forall_forall. intros p Hp. destruct (Hin p Hp) as [Hp' _].
    rewrite search_unfold in Hf. cbn in Hf. injection Hf as <-.
    destruct (arxiv_search E topic top_n) as [rs | ys]; [| contradiction].
    apply in_map_iff in Hp' as (r0 & Hr0 & _).
    rewrite paper_of_result_fields in Hr0. injection Hr0 as <-.
    apply search_record_well_typed. }
  exact (emitted_from_well_typed E _ _ Hall Hwt).
Qed.

Lemma adapter_fallback_two_papers_conform :
  forallb conforms_PaperSummary
    [paper_with_summary (four_keys []) Sample.attention;
     paper_with_summary (four_keys []) Sample.bert] = true.
Proof.
  exact (adapter_fallback_papers_conform
           (Sample2.env None None (Yields [Sample.attention; Sample.bert])
                        None)
           "transformers" 2 _ _ eq_refl eq_refl).
Defined.

(** *** Module set-up *)

(** X22. A model id spelled with a leading [models/], as some
    documentation spells it, is normalised to the same id as the plain
    spelling. *)
Theorem model_id_spellings_agree id :
  String.prefix "models/" id = false ->
  normalize_model_id ("models/" ++ id) = normalize_model_id id
  /\ normalize_model_id id = id.
Proof.
  intros H. unfold normalize_model_id.
  rewrite (prefix_app "models/" id), H.
  split; [apply (drop_app "models/" id) | reflexivity].
Qed.

Lemma model_id_flash_spellings :
  normalize_model_id ("models/" ++ "gemini-2.5-flash") =
    normalize_model_id "gemini-2.5-flash"
  /\ normalize_model_id "gemini-2.5-flash" = "gemini-2.5-flash".
Proof.
  exact (model_id_spellings_agree "gemini-2.5-flash" eq_refl).
Defined.

(** *** Replies and records that need nothing more *)

(** X24. A reply that parses to a JSON object is enough for the record
    to be emitted: its summary holds the object's values under the four
    keys, the empty string for a key the object lacks, and none of the
    object's other members. *)
Theorem object_reply_is_emitted E client p authors resp d :
  GENAI_CLIENT E = Some client ->
  needs_summary (get p "summary") = true ->
  join ", " (py_or (get p "authors") (PList [])) = Some authors ->
  client (GEMINI_MODEL E) (prompt_of (base_of p) authors) = Some resp ->
  json_loads E (_clean_json_text (reply_text resp)) = Loaded (PDict d) ->
  enrich_record E p =
    ([EvSummarize (base_of p);
      EvGenerate (GEMINI_MODEL E) (prompt_of (base_of p) authors)],
     Ok (PDict (base_of p ++ [("summary", PDict (four_keys d))]))).
Proof.
  intros Hc Hn Hj Hr Hl. apply enrich_record_Ok.
  rewrite (summary_for_needed E p (base_of p) Hn).
  rewrite (summarize_with_client E client (base_of p) authors Hc Hj).
  now rewrite Hr, Hl.
Qed.

Lemma object_reply_papers_member :
  enrich_record
    (Sample2.env
       (Some (Sample2.replying
                (Some (Some (fence ++ "json" ++ newline
                             ++ Sample2.object_text ++ newline ++ fence)))))
       None (Yields []) None)
    [("title", PStr "BERT"); ("authors", PList [PStr "J. Devlin"])] =
    ([EvSummarize (base_of [("title", PStr "BERT");
                            ("authors", PList [PStr "J. Devlin"])]);
      EvGenerate "gemini-2.0-pro"
        (prompt_of (base_of [("title", PStr "BERT");
                             ("authors", PList [PStr "J. Devlin"])])
                   "J. Devlin")],
     Ok (PDict [("title", PStr "BERT");
                ("authors", PList [PStr "J. Devlin"]);
                ("abstract", PStr ""); ("link", PStr "");
                ("published", PNone); ("summary", empty_summary)])).
Proof.
  exact (object_reply_is_emitted
           (Sample2.env
              (Some (Sample2.replying
                       (Some (Some (fence ++ "json" ++ newline
                                    ++ Sample2.object_text ++ newline
                                    ++ fence)))))
              None (Yields []) None)
           (Sample2.replying
              (Some (Some (fence ++ "json" ++ newline
                           ++ Sample2.object_text ++ newline ++ fence))))
           [("title", PStr "BERT"); ("authors", PList [PStr "J. Devlin"])]
           "J. Devlin"
           (Some (fence ++ "json" ++ newline
                  ++ Sample2.object_text ++ newline ++ fence))
           [("papers", PList [])]
           eq_refl eq_refl eq_refl eq_refl eq_refl).
Defined.

Lemma enrich_all_embedded E entries :
  (forall p, In p (records_of entries) ->
     needs_summary (get p "summary") = false) ->
  exists out,
    enrich_all E entries = ([], Ok out)
    /\ List.length out = List.length (records_of entries).
Proof.
  induction entries as [| p rest IH | v rest Hv IH] using entries_ind;
    intros H.
  - now exists [].
  - cbn [records_of] in H.
    destruct IH as (out & Hout & Hlen).
    { intros p' Hp'. apply H. now right. }
    pose proof (H p (or_introl eq_refl)) as Hn.
    assert (Hs : exists d, summary_for E p (base_of p) = ([], Ok (PDict d))).
    { unfold summary_for. rewrite Hn. unfold needs_summary in Hn.
      apply orb_false_elim in Hn as [_ Hd].
      destruct (get p "summary"); try discriminate.
      eexists. reflexivity. }
    destruct Hs as (d & Hs).
    exists (PDict (base_of p ++ [("summary", PDict (four_keys d))]) :: out).
    rewrite enrich_all_cons_record, (enrich_record_Ok E p _ _ Hs), Hout.
    split; [reflexivity | cbn; now rewrite Hlen].
  - rewrite (enrich_all_cons_skip E v rest Hv).
    rewrite (records_of_cons_skip v rest Hv) in *. now apply IH.
Qed.

(** X25. When the crew returns a non-empty list, bare or under [raw],
    whose records all carry a non-empty summary dict, the run calls
    nothing but the crew and returns one paper per record. *)
Theorem summarised_crew_list_needs_no_call E topic top_n result entries :
  crew_kickoff E topic top_n = Some result ->
  dispatch_shape E result = Ok (PList entries) ->
  entries <> [] ->
  (forall p, In p (records_of entries) ->
     needs_summary (get p "summary") = false) ->
  exists out,
    run_research_crew E topic top_n =
      ([EvCrew topic top_n], Ok (Response topic (model_name E) out))
    /\ List.length out = List.length (records_of entries).
Proof.
  intros Hcrew Hd Hne Hall.
  destruct (enrich_all_embedded E entries Hall) as (out & Hout & Hlen).
  exists out. split; [| exact Hlen].
  rewrite (run_crew_returns E topic top_n result Hcrew).
  rewrite (normalize_truthy E result topic top_n (PList entries)
             (List.length entries) entries Hd).
  - unfold enrich_and_respond. now rewrite Hout.
  - reflexivity.
  - now destruct entries.
  - reflexivity.
Qed.

Lemma summarised_wrapper_list_needs_no_call :
  exists out,
    run_research_crew
      (Sample2.env (Some (Sample2.replying None))
         (Some (PObj [("raw", PList [PInt 0;
                                     PDict [("title", PStr "BERT");
                                            ("summary",
                                             PDict Sample.complete_summary)]])]))
         (Fails []) None)
      "bert" 1 =
      ([EvCrew "bert" 1], Ok (Response "bert" "gemini-2.5-flash" out))
    /\ List.length out = 1%nat.
Proof.
  refine (summarised_crew_list_needs_no_call
            (Sample2.env (Some (Sample2.replying None))
               (Some (PObj [("raw", PList [PInt 0;
                                           PDict [("title", PStr "BERT");
                                                  ("summary",
                                                   PDict Sample.complete_summary)]])]))
               (Fails []) None)
            "bert" 1 _ _ eq_refl eq_refl _ _).
  - discriminate.
  - intros p [<- | []]. reflexivity.
Defined.
